(** * TechGenie chat view: frame handling, session synchronisation, workspace gate

    A shallow embedding of the [ChatView] component (the chat page of the
    TechGenie web UI) and of the constants it uses.  The component is a
    React function component; its hooks state, its refs and the closures
    created by every [sendMessage] call are made explicit here:

    - [View] holds the component's [useState]/[useRef] cells, the heap of
      [ChatItem] objects (the objects are shared between [chatList.current]
      and the [currentChat] variable of a closure, and are mutated in place),
      the closures of all [sendMessage] invocations, and the queue of
      pending [requestAnimationFrame] callbacks;
    - every callback is a function [View -> View * list Effect]; the effects
      are the calls that leave the component (session store, router, modal,
      console, stream client);
    - [step] and [run] deliver a sequence of events, one callback at a time,
      as the JavaScript event loop does; the component is taken to have
      re-rendered between two events, so that a [sendMessage] call sees the
      state its predecessors left. *)

From Stdlib Require Import String Ascii List Bool Arith Lia.
From stdpp Require Import base decidable option list strings pretty.
Import ListNotations.
Local Open Scope string_scope.
Local Open Scope list_scope.

(** ** JavaScript values used by the component *)

Module Js.

(** Truthiness of an optional string ([undefined] and [""] are falsy). *)
Definition truthy (v : option string) : bool :=
  match v with
  | Some s => negb (String.eqb s "")
  | None => false
  end.

(** [a || b] on optional strings. *)
Definition or_else (a b : option string) : option string :=
  if truthy a then a else b.

(** [a === lit] for an optional string and a string literal. *)
Definition strict_eq (a : option string) (lit : string) : bool :=
  match a with
  | Some s => String.eqb s lit
  | None => false
  end.

(** White space removed by [String.prototype.trim] (the ASCII part). *)
Definition isWhiteSpace (a : ascii) : bool :=
  match nat_of_ascii a with
  | 9 | 10 | 11 | 12 | 13 | 32 => true
  | _ => false
  end.

Fixpoint trimStart (s : string) : string :=
  match s with
  | EmptyString => EmptyString
  | String a s' => if isWhiteSpace a then trimStart s' else s
  end.

Fixpoint trimEnd (s : string) : string :=
  match s with
  | EmptyString => EmptyString
  | String a s' =>
      let t := trimEnd s' in
      if isWhiteSpace a && String.eqb t "" then EmptyString else String a t
  end.

Definition trim (s : string) : string := trimEnd (trimStart s).

(** [arr.includes(x)] on an array of strings. *)
Definition includes (arr : list string) (x : string) : bool :=
  existsb (String.eqb x) arr.

(** [[...arr.slice(0, -1), x]]; also the result of
    [arr.splice(arr.length - 1, 1, x)] on a copy of [arr] (on the empty
    array the start index -1 is clamped to 0 and [x] is inserted). *)
Definition replaceLast {A} (arr : list A) (x : A) : list A :=
  removelast arr ++ [x].

(** Completion of an awaited call or of a callback: normal or abrupt. *)
Inductive Completion (E A : Type) : Type :=
| Returns (a : A)
| Throws (e : E).
Arguments Returns {E A} a.
Arguments Throws {E A} e.

(** [try { body } catch (e) { handler(e) }] *)
Definition tryCatch {E A} (body : Completion E A)
           (handler : E -> Completion E A) : Completion E A :=
  match body with
  | Returns a => Returns a
  | Throws e => handler e
  end.

End Js.
Import Js.

(** ** utils/constants *)

Definition RESULT_TYPES : list string := ["task_summary"; "result"].

(** ** Data model *)

(** An entry of [resultMap.fileInfo] of a file task. *)
Record TaskFile := {
  tf_fileName : string;
  tf_ossUrl : string;
  tf_fileSize : nat;
  tf_domainUrl : string
}.

Record TaskResult := {
  fileInfo : list TaskFile;
  steps : list string
}.

(** [MESSAGE.Task], with the fields [handleViewHistoryFiles] fills in. *)
Record Task := {
  messageTime : string;
  messageType : string;
  t_resultMap : TaskResult;
  t_requestId : string;
  messageId : string;
  finish : bool;
  isFinal : bool;
  id : string
}.

(** Modelled from the spec: [CHAT.Plan] is declared outside the sources at
    hand; the spec calls it an optional structured multi-step outline. *)
Record Plan := {
  planTitle : string;
  planSteps : list string
}.

(** [multiAgent], the accumulated agent output of a turn; created as
    [{tasks: []}]. *)
Record MultiAgent := {
  ma_tasks : list Task;
  ma_plan : option Plan
}.

(** [CHAT.ChatItem], with the fields [combineCurrentChat] fills in;
    [responseAll] is only present on items read back from the session
    store. *)
Record ChatItem := {
  query : string;
  files : list string;
  responseType : string;
  ci_sessionId : string;
  ci_requestId : string;
  ci_loading : bool;
  forceStop : bool;
  tasks : list Task;
  thought : string;
  response : string;
  taskStatus : nat;
  tip : option string;
  multiAgent : MultiAgent;
  ci_responseAll : option string
}.

Definition set_ci_loading (b : bool) (c : ChatItem) : ChatItem :=
  {| query := query c; files := files c; responseType := responseType c;
     ci_sessionId := ci_sessionId c; ci_requestId := ci_requestId c;
     ci_loading := b; forceStop := forceStop c; tasks := tasks c;
     thought := thought c; response := response c;
     taskStatus := taskStatus c; tip := tip c; multiAgent := multiAgent c;
     ci_responseAll := ci_responseAll c |}.

Definition set_response (r : string) (c : ChatItem) : ChatItem :=
  {| query := query c; files := files c; responseType := responseType c;
     ci_sessionId := ci_sessionId c; ci_requestId := ci_requestId c;
     ci_loading := ci_loading c; forceStop := forceStop c; tasks := tasks c;
     thought := thought c; response := r;
     taskStatus := taskStatus c; tip := tip c; multiAgent := multiAgent c;
     ci_responseAll := ci_responseAll c |}.

(** [{...chat, loading: false, tip: undefined, response: r}] *)
Definition asHistoryItem (r : string) (c : ChatItem) : ChatItem :=
  {| query := query c; files := files c; responseType := responseType c;
     ci_sessionId := ci_sessionId c; ci_requestId := ci_requestId c;
     ci_loading := false; forceStop := forceStop c; tasks := tasks c;
     thought := thought c; response := r;
     taskStatus := taskStatus c; tip := None; multiAgent := multiAgent c;
     ci_responseAll := ci_responseAll c |}.

(** Modelled from the spec: the type of [resultMap.eventData] is declared
    outside the sources at hand; the spec describes a partial-results
    payload carrying tasks and, optionally, newer thought and plan values. *)
Record EventData := {
  ed_tasks : list Task;
  ed_thought : option string;
  ed_plan : option Plan
}.

Record ResultMap := {
  eventData : option EventData
}.

(** [MESSAGE.Answer]: one frame of the stream, as destructured by
    [handleMessage]. *)
Record Answer := {
  finished : bool;
  resultMap : option ResultMap;
  packageType : string;
  status : option string;
  reqId : option string;
  responseAll : option string
}.

(** [resultMap?.eventData] *)
Definition eventDataOf (data : Answer) : option EventData :=
  match resultMap data with
  | Some rm => eventData rm
  | None => None
  end.

(** [CHAT.TInputInfo] *)
Record TInputInfo := {
  message : option string;
  deepThink : bool;
  outputStyle : option string;
  ii_files : list string
}.

(** What [handleTaskData] returns. *)
Record TaskData := {
  td_taskList : list Task;
  td_plan : option Plan
}.

(** The functions of [@/utils/chat] that the component imports.  They are
    taken as an interface; [ChatView] only calls them. *)
Class ChatUtils := {
  combineData : EventData -> ChatItem -> ChatItem;
  handleTaskData : ChatItem -> bool -> MultiAgent -> TaskData
}.

(** ** services/session and services/file: requests and responses *)

(** [ChatSessionData] *)
Record ChatSessionData := {
  sd_chatList : option (list ChatItem);
  sd_sessionId : option string;
  sd_chatTitle : option string
}.

(** [ChatSessionResponse] / [ChatSessionCreateResponse] *)
Record ChatSessionResponse := {
  success : bool;
  sr_message : string;
  sr_data : option ChatSessionData
}.

(** [FileInfo] *)
Record FileInfo := {
  ossUrl : string;
  downloadUrl : string;
  domainUrl : string;
  fi_requestId : string;
  fileName : string
}.

(** [FileListResponse]; [results] may be missing in a malformed reply. *)
Record FileListResponse := {
  results : option (list FileInfo);
  totalSize : nat
}.

(** A rejected request, as the axios interceptors pass it on:
    [error?.response?.status]. *)
Record RequestError := {
  err_status : option nat;
  err_message : string
}.

Definition Awaited (A : Type) : Type := Completion RequestError A.

(** [error?.response?.status === code] *)
Definition hasStatus (error : RequestError) (code : nat) : bool :=
  match err_status error with
  | Some st => Nat.eqb st code
  | None => false
  end.

(** ** The component's state *)

(** The closure of one [sendMessage] invocation: the render-time values its
    callbacks captured and its [let currentChat] variable, a reference into
    the heap of chat items. *)
Record Closure := {
  cl_hasNavigated : bool;
  cl_propRequestId : option string;
  cl_chatTitle : string;
  cl_deepThink : bool;
  cl_currentChat : nat
}.

Definition set_cl_currentChat (r : nat) (cl : Closure) : Closure :=
  {| cl_hasNavigated := cl_hasNavigated cl;
     cl_propRequestId := cl_propRequestId cl;
     cl_chatTitle := cl_chatTitle cl;
     cl_deepThink := cl_deepThink cl;
     cl_currentChat := r |}.

Record View := mkView {
  propRequestId : option string;      (* props.requestId, fixed during a run *)
  searchFrom : option string;         (* searchParams.get('from') *)
  sessionId : string;                 (* useMemo(() => getSessionId(), []) *)
  chatTitle : string;
  taskList : list Task;
  objs : list ChatItem;               (* heap of ChatItem objects *)
  chatList : list nat;                (* chatList.current, by reference *)
  plan : option Plan;
  showAction : bool;
  loading : bool;
  hasNavigated : bool;
  currentSSEConnection : option nat;
  hasSavedSession : bool;
  hasSavedSessionRef : bool;          (* hasSavedSessionRef.current *)
  streams : list Closure;             (* one per sendMessage invocation *)
  rafQueue : list (nat * Answer)      (* pending requestAnimationFrame callbacks *)
}.

Definition setChatTitle (v : string) (s : View) : View :=
  mkView (propRequestId s) (searchFrom s) (sessionId s) v (taskList s) (objs s)
    (chatList s) (plan s) (showAction s) (loading s) (hasNavigated s)
    (currentSSEConnection s) (hasSavedSession s) (hasSavedSessionRef s)
    (streams s) (rafQueue s).

Definition setTaskList (v : list Task) (s : View) : View :=
  mkView (propRequestId s) (searchFrom s) (sessionId s) (chatTitle s) v (objs s)
    (chatList s) (plan s) (showAction s) (loading s) (hasNavigated s)
    (currentSSEConnection s) (hasSavedSession s) (hasSavedSessionRef s)
    (streams s) (rafQueue s).

Definition set_objs (v : list ChatItem) (s : View) : View :=
  mkView (propRequestId s) (searchFrom s) (sessionId s) (chatTitle s)
    (taskList s) v (chatList s) (plan s) (showAction s) (loading s)
    (hasNavigated s) (currentSSEConnection s) (hasSavedSession s)
    (hasSavedSessionRef s) (streams s) (rafQueue s).

Definition set_chatList (v : list nat) (s : View) : View :=
  mkView (propRequestId s) (searchFrom s) (sessionId s) (chatTitle s)
    (taskList s) (objs s) v (plan s) (showAction s) (loading s)
    (hasNavigated s) (currentSSEConnection s) (hasSavedSession s)
    (hasSavedSessionRef s) (streams s) (rafQueue s).

Definition setPlan (v : option Plan) (s : View) : View :=
  mkView (propRequestId s) (searchFrom s) (sessionId s) (chatTitle s)
    (taskList s) (objs s) (chatList s) v (showAction s) (loading s)
    (hasNavigated s) (currentSSEConnection s) (hasSavedSession s)
    (hasSavedSessionRef s) (streams s) (rafQueue s).

Definition setShowAction (v : bool) (s : View) : View :=
  mkView (propRequestId s) (searchFrom s) (sessionId s) (chatTitle s)
    (taskList s) (objs s) (chatList s) (plan s) v (loading s)
    (hasNavigated s) (currentSSEConnection s) (hasSavedSession s)
    (hasSavedSessionRef s) (streams s) (rafQueue s).

Definition setLoading (v : bool) (s : View) : View :=
  mkView (propRequestId s) (searchFrom s) (sessionId s) (chatTitle s)
    (taskList s) (objs s) (chatList s) (plan s) (showAction s) v
    (hasNavigated s) (currentSSEConnection s) (hasSavedSession s)
    (hasSavedSessionRef s) (streams s) (rafQueue s).

Definition setHasNavigated (v : bool) (s : View) : View :=
  mkView (propRequestId s) (searchFrom s) (sessionId s) (chatTitle s)
    (taskList s) (objs s) (chatList s) (plan s) (showAction s) (loading s)
    v (currentSSEConnection s) (hasSavedSession s)
    (hasSavedSessionRef s) (streams s) (rafQueue s).

Definition setHasSavedSession (v : bool) (s : View) : View :=
  mkView (propRequestId s) (searchFrom s) (sessionId s) (chatTitle s)
    (taskList s) (objs s) (chatList s) (plan s) (showAction s) (loading s)
    (hasNavigated s) (currentSSEConnection s) v
    (hasSavedSessionRef s) (streams s) (rafQueue s).

Definition set_hasSavedSessionRef (v : bool) (s : View) : View :=
  mkView (propRequestId s) (searchFrom s) (sessionId s) (chatTitle s)
    (taskList s) (objs s) (chatList s) (plan s) (showAction s) (loading s)
    (hasNavigated s) (currentSSEConnection s) (hasSavedSession s)
    v (streams s) (rafQueue s).

Definition set_streams (v : list Closure) (s : View) : View :=
  mkView (propRequestId s) (searchFrom s) (sessionId s) (chatTitle s)
    (taskList s) (objs s) (chatList s) (plan s) (showAction s) (loading s)
    (hasNavigated s) (currentSSEConnection s) (hasSavedSession s)
    (hasSavedSessionRef s) v (rafQueue s).

Definition set_rafQueue (v : list (nat * Answer)) (s : View) : View :=
  mkView (propRequestId s) (searchFrom s) (sessionId s) (chatTitle s)
    (taskList s) (objs s) (chatList s) (plan s) (showAction s) (loading s)
    (hasNavigated s) (currentSSEConnection s) (hasSavedSession s)
    (hasSavedSessionRef s) (streams s) v.

(** The component as first rendered: [useState]/[useRef] initial values. *)
Definition initialView (requestId from : option string) (sid : string) : View :=
  {| propRequestId := requestId; searchFrom := from; sessionId := sid;
     chatTitle := ""; taskList := []; objs := []; chatList := [];
     plan := None; showAction := false; loading := false;
     hasNavigated := false; currentSSEConnection := None;
     hasSavedSession := false; hasSavedSessionRef := false;
     streams := []; rafQueue := [] |}.

(** *** The heap of chat items *)

Definition blankChat : ChatItem :=
  {| query := ""; files := []; responseType := ""; ci_sessionId := "";
     ci_requestId := ""; ci_loading := false; forceStop := false; tasks := [];
     thought := ""; response := ""; taskStatus := 0; tip := None;
     multiAgent := {| ma_tasks := []; ma_plan := None |};
     ci_responseAll := None |}.

(** Reading through a reference; every reference the component holds was
    returned by [alloc], so the default is never used. *)
Definition deref (s : View) (r : nat) : ChatItem :=
  default blankChat (objs s !! r).

(** A new object; its reference is the heap's former length. *)
Definition alloc (c : ChatItem) (s : View) : View :=
  set_objs (objs s ++ [c]) s.

(** In-place mutation of the object behind [r]. *)
Definition mutate (r : nat) (f : ChatItem -> ChatItem) (s : View) : View :=
  set_objs (<[r := f (deref s r)]> (objs s)) s.

(** The array [chatList.current] by value, as it is serialised into a
    request body. *)
Definition chatListValues (s : View) : list ChatItem :=
  map (deref s) (chatList s).

(** ** Effects: the calls that leave the component *)

Inductive LogLevel := LogInfo | LogError.

(** The request body of the stream ([params] of [sendMessage]). *)
Record SSEParams := {
  p_sessionId : string;
  p_requestId : string;
  p_query : option string;
  p_deepThink : nat;
  p_outputStyle : option string
}.

Inductive ActionViewItem := AvFollow | AvBrowser | AvFile.

Inductive Effect :=
| EffLog (lvl : LogLevel) (msg : string)              (* console.log / console.error *)
| EffCreateSession (reqId : string) (data : ChatSessionData)  (* sessionApi.createSession *)
| EffUpdateSession (reqId : string) (data : ChatSessionData)  (* sessionApi.updateSession *)
| EffNavigate (path : string)                         (* navigate(path) *)
| EffModalInfo (title content : string)               (* modal.info *)
| EffScrollToTop                                      (* scrollToTop(chatRef.current) *)
| EffQuerySSE (stream : nat) (body : SSEParams)       (* querySSE({body, ...}) *)
| EffChangeActionView (item : ActionViewItem)         (* actionViewRef.current?.changeActionView *)
| EffUncaught (e : RequestError).                     (* an exception leaving a callback *)

Definition isCreate (e : Effect) : bool :=
  match e with EffCreateSession _ _ => true | _ => false end.


Definition isUpdate (e : Effect) : bool :=
  match e with EffUpdateSession _ _ => true | _ => false end.

(** ** The Workspace gate *)

(** The condition of [openAction]:
    [taskList.filter((t) => !RESULT_TYPES.includes(t.messageType)).length],
    used as a boolean. *)
Definition shouldShowWorkspace (taskList : list Task) : bool :=
  negb (Nat.eqb
          (length (List.filter
                     (fun t => negb (includes RESULT_TYPES (messageType t)))
                     taskList))
          0).

Definition openAction (taskList : list Task) (s : View) : View :=
  if shouldShowWorkspace taskList then setShowAction true s else s.

(** [changeActionStatus]; the workspace's [onClose] calls it with [false],
    [changeTask], [changeFile] and [changePlan] with [true]. *)
Definition changeActionStatus (status : bool) (s : View) : View :=
  setShowAction status s.

Definition updatePlan (p : option Plan) (s : View) : View := setPlan p s.

(** ** Session synchronisation *)

(** [chatTitle || (chatList.current[0]?.query)], with the [chatTitle] a
    closure captured. *)
Definition titleFor (capturedTitle : string) (s : View) : option string :=
  or_else (Some capturedTitle) (query <$> head (chatListValues s)).

(** [saveChatSession] up to its [await]: the log line and the create call. *)
Definition saveChatSession (reqId : string) (chatData : ChatSessionData)
  : list Effect :=
  [EffLog LogInfo "Saving chat session for reqId:";
   EffCreateSession reqId chatData].

(** [saveChatSession] from its [await] on.  The whole body is inside
    [try]/[catch]; the handler logs and, for status 409, logs that the
    session exists. *)
Definition saveChatSession_resume (reqId : string)
    (result : Awaited ChatSessionResponse)
  : Completion RequestError (list Effect) :=
  tryCatch
    match result with
    | Returns r =>
        Returns (if negb (success r)
                 then [EffLog LogError "Failed to save chat session:"]
                 else [EffLog LogInfo "Chat session saved successfully for reqId:"])
    | Throws e => Throws e
    end
    (fun error =>
       Returns (EffLog LogError "Error saving chat session for reqId:" ::
                if hasStatus error 409
                then [EffLog LogInfo "Session already exists for reqId:"]
                else [])).

(** [updateChatSession] up to its [await]. *)
Definition updateChatSession (reqId : string) (chatData : ChatSessionData)
  : list Effect :=
  [EffLog LogInfo "Updating chat session for reqId:";
   EffUpdateSession reqId chatData].

(** [updateChatSession] from its [await] on. *)
Definition updateChatSession_resume (reqId : string)
    (result : Awaited ChatSessionResponse)
  : Completion RequestError (list Effect) :=
  tryCatch
    match result with
    | Returns r =>
        Returns (if negb (success r)
                 then [EffLog LogError "Failed to update chat session:"]
                 else [EffLog LogInfo "Chat session updated successfully for reqId:"])
    | Throws e => Throws e
    end
    (fun error =>
       Returns [EffLog LogError "Error updating chat session for reqId:"]).

(** ** sendMessage and the callbacks it hands to the stream client *)

Definition combineCurrentChat (inputInfo : TInputInfo)
    (sessionId requestId : string) : ChatItem :=
  {| query := default "" (message inputInfo);
     files := ii_files inputInfo;
     responseType := "txt";
     ci_sessionId := sessionId;
     ci_requestId := requestId;
     ci_loading := true;
     forceStop := false;
     tasks := [];
     thought := "";
     response := "";
     taskStatus := 0;
     tip := Some "已接收到你的任务，将立即开始处理...";
     multiAgent := {| ma_tasks := []; ma_plan := None |};
     ci_responseAll := None |}.

(** [!message || message.trim() === ""] *)
Definition blankMessage (m : option string) : bool :=
  negb (truthy m) || String.eqb (trim (default "" m)) "".

(** [sendMessage(inputInfo)]; [requestId] is the value [getUniqId()]
    returns in this call.  The new closure captures the state values of the
    render the call was made from: the resets below are not seen by
    [handleMessage]. *)
Definition sendMessage (requestId : string) (inputInfo : TInputInfo)
    (s : View) : View * list Effect :=
  if truthy (propRequestId s) && blankMessage (message inputInfo)
  then (s, [])
  else
    let currentChat := length (objs s) in
    let s1 := alloc (combineCurrentChat inputInfo (sessionId s) requestId) s in
    let s2 := set_chatList (chatList s ++ [currentChat]) s1 in
    let s3 := if String.eqb (chatTitle s) ""
              then setChatTitle (default "" (message inputInfo)) s2 else s2 in
    let s4 := set_hasSavedSessionRef false
                (setHasNavigated false (setHasSavedSession false s3)) in
    let s5 := setLoading true s4 in
    let params :=
      {| p_sessionId := sessionId s; p_requestId := requestId;
         p_query := message inputInfo;
         p_deepThink := if deepThink inputInfo then 1 else 0;
         p_outputStyle := outputStyle inputInfo |} in
    let closure :=
      {| cl_hasNavigated := hasNavigated s;
         cl_propRequestId := propRequestId s;
         cl_chatTitle := chatTitle s;
         cl_deepThink := deepThink inputInfo;
         cl_currentChat := currentChat |} in
    (set_streams (streams s ++ [closure]) s5,
     [EffQuerySSE (length (streams s)) params]).

Section Callbacks.
Context `{ChatUtils}.

(** The first statement of [handleMessage]: the create-once guard.  The
    ref is set before [saveChatSession] is called. *)
Definition saveOnFirstReqId (cl : Closure) (data : Answer) (s : View)
  : View * list Effect :=
  if truthy (reqId data) && negb (cl_hasNavigated cl)
     && negb (truthy (cl_propRequestId cl)) && negb (hasSavedSessionRef s)
  then
    let r := default "" (reqId data) in
    let s1 := set_hasSavedSessionRef true s in
    let s2 := setHasSavedSession true (setHasNavigated true s1) in
    (s2,
     EffLog LogInfo "First time receiving reqId, saving session:" ::
     saveChatSession r
       {| sd_chatList := Some (chatListValues s);
          sd_sessionId := Some (sessionId s);
          sd_chatTitle := titleFor (cl_chatTitle cl) s |} ++
     [EffNavigate ("/" ++ r)])
  else if truthy (reqId data) && hasSavedSessionRef s
  then (s, [EffLog LogInfo "Session already saved for reqId:"])
  else (s, []).

(** The [status === "tokenUseUp"] branch of [handleMessage]. *)
Definition onTokenUseUp (cl : Closure) (s : View) : View * list Effect :=
  let currentChat := deref s (cl_currentChat cl) in
  let taskData :=
    handleTaskData currentChat (cl_deepThink cl) (multiAgent currentChat) in
  let s1 := mutate (cl_currentChat cl) (set_ci_loading false) s in
  let s2 := setLoading false s1 in
  (setTaskList (td_taskList taskData) s2,
   [EffModalInfo "您的试用次数已用尽" "如需额外申请，请联系 liyang.1236@jd.com"]).

(** [handleMessage(data)] of the stream [stream], up to and including the
    [requestAnimationFrame] call, whose callback is queued. *)
Definition handleMessage (stream : nat) (data : Answer) (s : View)
  : View * list Effect :=
  match streams s !! stream with
  | None => (s, [])
  | Some cl =>
      let '(s1, e1) := saveOnFirstReqId cl data s in
      if strict_eq (status data) "tokenUseUp"
      then
        let '(s2, e2) := onTokenUseUp cl s1 in (s2, e1 ++ e2)
      else if negb (String.eqb (packageType data) "heartbeat")
      then
        (set_rafQueue (rafQueue s1 ++ [(stream, data)]) s1,
         e1 ++ [EffScrollToTop])
      else (s1, e1)
  end.

(** The callback [handleMessage] passes to [requestAnimationFrame].  The
    value [combineData] returns is taken as a new object, which the
    [currentChat] variable of the closure then refers to; the chat list
    holds the previous object until the [splice] at the end. *)
Definition animationFrameCallback (stream : nat) (data : Answer) (s : View)
  : View * list Effect :=
  match streams s !! stream, eventDataOf data with
  | Some cl, Some ed =>
      (* currentChat = combineData(resultMap.eventData || {}, currentChat) *)
      let currentChat := length (objs s) in
      let s1 := alloc (combineData ed (deref s (cl_currentChat cl))) s in
      let s2 :=
        set_streams (<[stream := set_cl_currentChat currentChat cl]> (streams s1))
                    s1 in
      let taskData :=
        handleTaskData (deref s2 currentChat) (cl_deepThink cl)
                       (multiAgent (deref s2 currentChat)) in
      let s3 := setTaskList (td_taskList taskData) s2 in
      let s4 := updatePlan (td_plan taskData) s3 in
      let s5 := openAction (td_taskList taskData) s4 in
      let '(s6, e6) :=
        if finished data
        then
          let s51 := mutate currentChat (set_ci_loading false) s5 in
          let s52 := setLoading false s51 in
          if strict_eq (status data) "success" && truthy (reqId data)
             && truthy (responseAll data)
          then
            let s53 :=
              mutate currentChat (set_response (default "" (responseAll data)))
                     s52 in
            (s53,
             EffLog LogInfo "Task finished, updating session with responseAll:" ::
             updateChatSession (default "" (reqId data))
               {| sd_chatList :=
                    Some (replaceLast (chatListValues s53)
                                      (deref s53 currentChat));
                  sd_sessionId := Some (sessionId s53);
                  sd_chatTitle := titleFor (cl_chatTitle cl) s53 |})
          else (s52, [])
        else (s5, []) in
      (set_chatList (replaceLast (chatList s6) currentChat) s6, e6)
  | _, _ => (s, [])
  end.

(** [handleError]: the error is thrown on to the stream client. *)
Definition handleError (error : RequestError)
  : Completion RequestError unit :=
  Throws error.

(** [handleClose] only logs. *)
Definition handleClose : list Effect := [EffLog LogInfo "🚀 ~ close"].

(** ** Events *)

Inductive Event :=
| EvSend (requestId : string) (inputInfo : TInputInfo)
    (* the operator submits a query: sendMessage *)
| EvFrame (stream : nat) (data : Answer)
    (* the stream client delivers a frame to handleMessage *)
| EvAnimationFrame
    (* the browser runs the oldest pending animation-frame callback *)
| EvSaveSettled (reqId : string) (result : Awaited ChatSessionResponse)
    (* the create request of saveChatSession resolves or rejects *)
| EvUpdateSettled (reqId : string) (result : Awaited ChatSessionResponse)
    (* the update request of updateChatSession resolves or rejects *)
| EvStreamError (stream : nat) (error : RequestError)
    (* the stream client reports a transport error to handleError *)
| EvStreamClose (stream : nat)
    (* the stream client reports the end of the stream to handleClose *)
| EvActionStatus (status : bool).
    (* the operator closes (false) or opens (true) the workspace *)

Definition settle (c : Completion RequestError (list Effect)) : list Effect :=
  match c with
  | Returns es => es
  | Throws e => [EffUncaught e]
  end.

Definition step (ev : Event) (s : View) : View * list Effect :=
  match ev with
  | EvSend requestId inputInfo => sendMessage requestId inputInfo s
  | EvFrame stream data => handleMessage stream data s
  | EvAnimationFrame =>
      match rafQueue s with
      | [] => (s, [])
      | (stream, data) :: rest =>
          animationFrameCallback stream data (set_rafQueue rest s)
      end
  | EvSaveSettled r result => (s, settle (saveChatSession_resume r result))
  | EvUpdateSettled r result => (s, settle (updateChatSession_resume r result))
  | EvStreamError _ error =>
      (s, settle (match handleError error with
                  | Returns _ => Returns []
                  | Throws e => Throws e
                  end))
  | EvStreamClose _ => (s, handleClose)
  | EvActionStatus status => (changeActionStatus status s, [])
  end.

(** Events are handled one after the other; the effects accumulate in
    order. *)
Fixpoint run (evs : list Event) (s : View) : View * list Effect :=
  match evs with
  | [] => (s, [])
  | ev :: evs' =>
      let '(s1, e1) := step ev s in
      let '(s2, e2) := run evs' s1 in
      (s2, e1 ++ e2)
  end.

End Callbacks.

(** ** Restoring a session from history *)

(** [chatList.current = historyChatList]: the restored items are new
    objects. *)
Definition restoreChatList (items : list ChatItem) (s : View) : View :=
  set_chatList (seq (length (objs s)) (length items))
               (set_objs (objs s ++ items) s).

(** The body of [if (result.success && result.data)] that both
    [loadChatSession] and [handleViewHistoryFiles] start with;
    [lastResort] is the third operand of the [||] chain of [response]. *)
Definition restoreSession (lastResort : ChatItem -> option string)
    (data : ChatSessionData) (s : View) : View :=
  let s1 :=
    match sd_chatList data with
    | Some savedChatList =>
        restoreChatList
          (map (fun chat =>
                  asHistoryItem
                    (default ""
                       (or_else (or_else (Some (response chat))
                                         (ci_responseAll chat))
                                (lastResort chat)))
                    chat)
               savedChatList)
          s
    | None => s
    end in
  if truthy (sd_chatTitle data)
  then setChatTitle (default "" (sd_chatTitle data)) s1
  else s1.

(** The task [handleViewHistoryFiles] builds for the file at [index];
    [now] is the reading of [new Date().toISOString()]. *)
Definition fileTask (now : string) (reqId : string) (index : nat)
    (file : FileInfo) : Task :=
  {| messageTime := now;
     messageType := "file";
     t_resultMap :=
       {| fileInfo := [{| tf_fileName := fileName file;
                          tf_ossUrl := ossUrl file;
                          tf_fileSize := 0;
                          tf_domainUrl := domainUrl file |}];
          steps := [] |};
     t_requestId := reqId;
     messageId := reqId ++ "-" ++ pretty index;
     finish := true;
     isFinal := true;
     id := reqId ++ "-" ++ pretty index |}.

(** [handleViewHistoryFiles(reqId, files)], run to its end;
    [sessionResult] is the outcome of its [getSession] call and [clock] the
    time read while mapping the file at each index. *)
Definition handleViewHistoryFiles (clock : nat -> string) (reqId : string)
    (files : list FileInfo) (sessionResult : Awaited ChatSessionResponse)
    (s : View) : View * list Effect :=
  let s1 := setTaskList [] s in
  let '(s2, e2) :=
    match sessionResult with
    | Returns r =>
        match success r, sr_data r with
        | true, Some data =>
            (restoreSession (fun chat => Some (response chat)) data s1, [])
        | _, _ => (s1, [])
        end
    | Throws _ => (s1, [EffLog LogError "Error loading chat session:"])
    end in
  let taskList := imap (fun index file => fileTask (clock index) reqId index file)
                       files in
  (setShowAction true (setTaskList taskList s2),
   e2 ++ [EffChangeActionView AvFile]).

(** [loadChatSession(reqId)], run to its end; [result] is the outcome of
    its [getSession] call, [fileResponse] that of [getFileList] and
    [sessionResult] that of the [getSession] call made by
    [handleViewHistoryFiles]. *)
Definition loadChatSession (clock : nat -> string) (reqId : string)
    (result : Awaited ChatSessionResponse)
    (fileResponse : Awaited FileListResponse)
    (sessionResult : Awaited ChatSessionResponse)
    (s : View) : View * list Effect :=
  match result with
  | Returns r =>
      match success r, sr_data r with
      | true, Some data =>
          let s1 := restoreSession (fun _ => Some "") data s in
          let e1 := [EffLog LogInfo "Chat session loaded successfully"] in
          let fromHistory := strict_eq (searchFrom s1) "history" in
          if fromHistory
          then
            match fileResponse with
            | Returns fr =>
                match results fr with
                | Some (file :: more) =>
                    let '(s2, e2) :=
                      handleViewHistoryFiles clock reqId (file :: more)
                                             sessionResult s1 in
                    (s2, e1 ++ e2)
                | _ => (setShowAction false (setTaskList [] s1), e1)
                end
            | Throws _ =>
                (setShowAction false (setTaskList [] s1),
                 e1 ++ [EffLog LogError "Error loading files for history session:"])
            end
          else (s1, e1)
      | _, _ => (s, [])
      end
  | Throws _ => (s, [EffLog LogError "Error loading chat session:"])
  end.

(** ** The merge and extraction functions of utils/chat *)

Module SpecUtils.

(** Modelled from the spec: the upsert of one task into the task list by
    id, which [combineData] of [@/utils/chat] performs: replace if present,
    else append, preserving arrival order. *)
Definition upsertTask (l : list Task) (t : Task) : list Task :=
  match list_find (fun x => id x = id t) l with
  | Some (i, _) => <[i := t]> l
  | None => l ++ [t]
  end.

(** Modelled from the spec: [combineData] of [@/utils/chat], the Delta
    Merger: every task of the payload is upserted, thought and plan are
    overwritten only by non-empty newer values. *)
Definition combineData (ed : EventData) (c : ChatItem) : ChatItem :=
  {| query := query c; files := files c; responseType := responseType c;
     ci_sessionId := ci_sessionId c; ci_requestId := ci_requestId c;
     ci_loading := ci_loading c; forceStop := forceStop c; tasks := tasks c;
     thought := if truthy (ed_thought ed)
                then default "" (ed_thought ed) else thought c;
     response := response c;
     taskStatus := taskStatus c; tip := tip c;
     multiAgent :=
       {| ma_tasks := foldl upsertTask (ma_tasks (multiAgent c)) (ed_tasks ed);
          ma_plan := match ed_plan ed with
                     | Some p => Some p
                     | None => ma_plan (multiAgent c)
                     end |};
     ci_responseAll := ci_responseAll c |}.

(** Modelled from the spec: [handleTaskData] of [@/utils/chat], the Task
    Extractor: the tasks in arrival order and the current plan. *)
Definition handleTaskData (c : ChatItem) (deepThink : bool)
    (ma : MultiAgent) : TaskData :=
  {| td_taskList := ma_tasks ma; td_plan := ma_plan ma |}.

Definition utils : ChatUtils :=
  Build_ChatUtils combineData handleTaskData.

End SpecUtils.

(** ** Mounting the component *)

(** The component with its props and the state cells that only its two
    mount effects read. *)
Record Mounted := {
  view : View;
  inputInfoProp : TInputInfo;         (* props.inputInfo *)
  isFromUrl : bool;
  hasInitialized : bool
}.

(** The first render: [useState] initial values, under the given props. *)
Definition mount (inputInfo : TInputInfo) (requestId from : option string)
    (sid : string) : Mounted :=
  {| view := initialView requestId from sid; inputInfoProp := inputInfo;
     isFromUrl := false; hasInitialized := false |}.

(** The effect on [[propRequestId]], with the [loadChatSession] call it
    starts run to its end. *)
Definition loadEffect (clock : nat -> string)
    (result : Awaited ChatSessionResponse)
    (fileResponse : Awaited FileListResponse)
    (sessionResult : Awaited ChatSessionResponse)
    (m : Mounted) : Mounted * list Effect :=
  if truthy (propRequestId (view m))
  then
    let '(v, es) :=
      loadChatSession clock (default "" (propRequestId (view m))) result
                      fileResponse sessionResult (view m) in
    ({| view := v; inputInfoProp := inputInfoProp m; isFromUrl := true;
        hasInitialized := hasInitialized m |},
     EffLog LogInfo "Loading chat session for requestId:" :: es)
  else (m, []).

(** The effect on [[inputInfoProp.message, propRequestId, hasInitialized]];
    [requestId] is the value [getUniqId()] returns if [sendMessage] gets
    that far. *)
Definition initialSendEffect (requestId : string) (m : Mounted)
  : Mounted * list Effect :=
  if negb (truthy (propRequestId (view m)))
     && truthy (message (inputInfoProp m))
     && negb (String.eqb (trim (default "" (message (inputInfoProp m)))) "")
     && negb (hasInitialized m)
  then
    let '(v, es) := sendMessage requestId (inputInfoProp m) (view m) in
    ({| view := v; inputInfoProp := inputInfoProp m;
        isFromUrl := isFromUrl m; hasInitialized := true |},
     es)
  else (m, []).

(** [send] of the component's own input box: the mode of the first query
    is kept for every further one. *)
Definition send (requestId : string) (info : TInputInfo) (m : Mounted)
  : Mounted * list Effect :=
  let '(v, es) :=
    sendMessage requestId
      {| message := message info; deepThink := deepThink (inputInfoProp m);
         outputStyle := outputStyle info; ii_files := ii_files info |}
      (view m) in
  ({| view := v; inputInfoProp := inputInfoProp m; isFromUrl := isFromUrl m;
      hasInitialized := hasInitialized m |},
   es).

(** ** The home page (pages/Home) *)

(** What [renderContent] returns: the chat view under some props, the home
    page with its input box, or nothing. *)
Inductive HomeContent :=
| ShowChatView (inputInfo : TInputInfo) (requestId : option string)
| ShowHomePage
| ShowNothing.

(** [renderContent()], for the route parameter [requestId] and the
    [inputInfo] state; reading [length] of a missing message throws. *)
Definition renderContent (requestId : option string) (inputInfo : TInputInfo)
  : Completion unit HomeContent :=
  if truthy requestId
  then Returns (ShowChatView {| message := Some ""; deepThink := false;
                                outputStyle := None; ii_files := [] |}
                             requestId)
  else
    match message inputInfo with
    | None => Throws tt
    | Some m =>
        if Nat.ltb 0 (String.length m)
        then Returns (ShowChatView inputInfo requestId)
        else if Nat.eqb (String.length m) 0
        then Returns ShowHomePage
        else Returns ShowNothing
    end.

(** ** The history sidebar (components/ChatHistory) *)

Module ChatHistory.

(** [ChatSessionInfo] of services/session *)
Record ChatSessionInfo := {
  reqId : string;
  chatTitle : option string;
  createdAt : string;
  updatedAt : option string
}.

(** [ChatSessionListResponse] *)
Record ChatSessionListResponse := {
  r_success : bool;
  r_message : string;
  r_sessions : list ChatSessionInfo;
  r_total : nat
}.

(** [ChatSessionDeleteResponse] *)
Record ChatSessionDeleteResponse := {
  d_success : bool;
  d_message : string
}.

(** The four [useState] cells of the sidebar. *)
Record State := mkState {
  sessions : list ChatSessionInfo;
  loading : bool;
  error : option string;
  deletingSessionId : option string
}.

Definition initialState : State :=
  {| sessions := []; loading := false; error := None;
     deletingSessionId := None |}.

Definition setSessions (v : list ChatSessionInfo) (st : State) : State :=
  mkState v (loading st) (error st) (deletingSessionId st).

Definition setLoading (v : bool) (st : State) : State :=
  mkState (sessions st) v (error st) (deletingSessionId st).

Definition setError (v : option string) (st : State) : State :=
  mkState (sessions st) (loading st) v (deletingSessionId st).

Definition setDeletingSessionId (v : option string) (st : State) : State :=
  mkState (sessions st) (loading st) (error st) v.

(** The calls that leave the sidebar. *)
Inductive Out :=
| ConsoleLog (msg : string)
| ConsoleError (msg : string)
| ListSessions (limit offset : nat)          (* sessionApi.listSessions *)
| DeleteSession (reqId : string)             (* sessionApi.deleteSession *)
| Navigate (path : string)
| StopPropagation
| ModalConfirm (title content : string)
| MessageSuccess (text : string)             (* message.success *)
| MessageError (text : string).              (* message.error *)

(** [loadSessions] up to its [await]. *)
Definition loadSessions_start (st : State) : State * list Out :=
  (setError None (setLoading true st), [ListSessions 50 0]).

(** [loadSessions] from its [await] on, with its [catch] and [finally]. *)
Definition loadSessions_resume (response : Awaited ChatSessionListResponse)
    (st : State) : State * list Out :=
  let '(st1, out) :=
    match response with
    | Returns r =>
        if r_success r
        then (setSessions (r_sessions r) st, [])
        else (setError (or_else (Some (r_message r))
                                (Some "获取历史会话失败")) st, [])
    | Throws _ =>
        (setError (Some "获取历史会话失败，请检查后端服务是否运行") st,
         [ConsoleError "Failed to load sessions:"])
    end in
  (setLoading false st1, out).

(** [loadSessions], run to its end. *)
Definition loadSessions (response : Awaited ChatSessionListResponse)
    (st : State) : State * list Out :=
  let '(st1, o1) := loadSessions_start st in
  let '(st2, o2) := loadSessions_resume response st1 in
  (st2, o1 ++ o2).

Definition handleSessionClick (session : ChatSessionInfo) : list Out :=
  [Navigate ("/" ++ reqId session ++ "?from=history")].

(** [session.chatTitle || '未命名对话'] *)
Definition titleOf (session : ChatSessionInfo) : string :=
  default "" (or_else (chatTitle session) (Some "未命名对话")).

Definition quote : string := String (ascii_of_nat 34) EmptyString.

(** [handleDeleteSession] up to the confirm dialog. *)
Definition handleDeleteSession (session : ChatSessionInfo) : list Out :=
  [StopPropagation;
   ConsoleLog "Delete button clicked for session:";
   ModalConfirm "确认删除"
     ("确定要删除会话 " ++ quote ++ titleOf session ++ quote ++ " 吗？")].

(** [onOk] of the confirm dialog up to its [await]. *)
Definition onOk_start (session : ChatSessionInfo) (st : State)
  : State * list Out :=
  (setDeletingSessionId (Some (reqId session)) st,
   [ConsoleLog "User confirmed delete"; DeleteSession (reqId session)]).

(** [onOk] from its [await] on; [setSessions] is given a function of the
    previous value, so the filter applies to the list as it is then. *)
Definition onOk_resume (session : ChatSessionInfo)
    (response : Awaited ChatSessionDeleteResponse) (st : State)
  : State * list Out :=
  let '(st1, out) :=
    match response with
    | Returns r =>
        if d_success r
        then (setSessions
                (List.filter
                   (fun s => negb (String.eqb (reqId s) (reqId session)))
                   (sessions st))
                st,
              [MessageSuccess "会话删除成功"])
        else (st, [MessageError (default "" (or_else (Some (d_message r))
                                                     (Some "删除失败")))])
    | Throws _ =>
        (st, [ConsoleError "Failed to delete session:";
              MessageError "删除失败，请重试"])
    end in
  (setDeletingSessionId None st1, out).

Definition onCancel : list Out := [ConsoleLog "Delete cancelled by user"].

(** What [renderSessionItem] computes for a session, the creation time
    apart (it is formatted by [formatTimestamp] of [@/utils]). *)
Record SessionItem := {
  key : string;
  isActive : bool;
  displayTitle : string;
  isDeleting : bool
}.

Definition renderSessionItem (currentReqId : option string) (st : State)
    (session : ChatSessionInfo) : SessionItem :=
  {| key := reqId session;
     isActive := strict_eq currentReqId (reqId session);
     displayTitle := titleOf session;
     isDeleting := strict_eq (deletingSessionId st) (reqId session) |}.

(** The blocks of the list area, in the order they are rendered. *)
Inductive Pane :=
| Spinner
| ErrorText (text : string)
| EmptyNote
| SessionList (items : list SessionItem).

Definition render (currentReqId : option string) (st : State) : list Pane :=
  (if loading st then [Spinner] else []) ++
  (if truthy (error st) then [ErrorText (default "" (error st))] else []) ++
  (if negb (loading st) && negb (truthy (error st))
      && Nat.eqb (length (sessions st)) 0
   then [EmptyNote] else []) ++
  (if negb (loading st) && negb (truthy (error st))
      && Nat.ltb 0 (length (sessions st))
   then [SessionList (map (renderSessionItem currentReqId st) (sessions st))]
   else []).

End ChatHistory.

(** ** Notions used in the statements *)

(** The create calls among the effects of a run, all of them or those for
    one turn id. *)
Definition creates (es : list Effect) : list Effect := List.filter isCreate es.


Definition updates (es : list Effect) : list Effect := List.filter isUpdate es.

Definition isLog (e : Effect) : Prop :=
  match e with EffLog _ _ => True | _ => False end.


(** A frame with the quota-exhausted status. *)
Definition quotaExhausted (data : Answer) : bool :=
  strict_eq (status data) "tokenUseUp".


(** The turn a stream is working on: the object its [currentChat] variable
    refers to. *)
Definition turnOf (s : View) (stream : nat) : ChatItem :=
  match streams s !! stream with
  | Some cl => deref s (cl_currentChat cl)
  | None => blankChat
  end.

(** A stream is superseded once a later [sendMessage] has opened another. *)
Definition superseded (s : View) (stream : nat) : Prop :=
  S stream < length (streams s).

(** Every reference held by the view points into the heap. *)
Definition wfView (s : View) : Prop :=
  Forall (fun cl => cl_currentChat cl < length (objs s)) (streams s).

(** [s'] is [s] up to the three cells of the create-once guard. *)
Definition guardOnly (s s' : View) : Prop :=
  exists nav saved ref,
    s' = set_hasSavedSessionRef ref (setHasSavedSession saved
                                       (setHasNavigated nav s)).



(** The state the merge callback starts from once the payload has been
    merged into a new turn object and the displayed list, plan and workspace
    flag have been recomputed. *)
Definition merged `{ChatUtils} (stream : nat) (cl : Closure) (ed : EventData)
    (s : View) : View :=
  let currentChat := length (objs s) in
  let s1 := alloc (combineData ed (deref s (cl_currentChat cl))) s in
  let s2 :=
    set_streams (<[stream := set_cl_currentChat currentChat cl]> (streams s1))
                s1 in
  let taskData :=
    handleTaskData (deref s2 currentChat) (cl_deepThink cl)
                   (multiAgent (deref s2 currentChat)) in
  openAction (td_taskList taskData)
             (updatePlan (td_plan taskData)
                         (setTaskList (td_taskList taskData) s2)).





(** The tasks accumulated in the turn of a stream. *)
Definition turnTasks (s : View) (stream : nat) : list Task :=
  ma_tasks (multiAgent (turnOf s stream)).

(** A string of white space only (the empty string included). *)
Fixpoint whiteSpaceOnly (m : string) : bool :=
  match m with
  | EmptyString => true
  | String a m' => isWhiteSpace a && whiteSpaceOnly m'
  end.

(** A message that is missing or is white space only. *)
Definition blank (m : option string) : bool :=
  match m with
  | Some m => whiteSpaceOnly m
  | None => true
  end.

(** The stream-open calls among the effects, and the streams they name. *)
Definition isQuery (e : Effect) : bool :=
  match e with EffQuerySSE _ _ => true | _ => false end.

Definition queries (es : list Effect) : list Effect := List.filter isQuery es.

Definition openedStreams (es : list Effect) : list nat :=
  omap (fun e => match e with EffQuerySSE st _ => Some st | _ => None end) es.

(** The paths navigated to and the turn ids of the create calls, in order. *)
Definition navigations (es : list Effect) : list string :=
  omap (fun e => match e with EffNavigate p => Some p | _ => None end) es.

Definition createdIds (es : list Effect) : list string :=
  omap (fun e => match e with EffCreateSession r _ => Some r | _ => None end)
       es.

(** [chat.response || chat.responseAll || ""] *)
Definition shownResponse (chat : ChatItem) : string :=
  default "" (or_else (or_else (Some (response chat)) (ci_responseAll chat))
                      (Some "")).

(** A turn as history shows it. *)
Definition settled (chat : ChatItem) : Prop :=
  ci_loading chat = false /\ tip chat = None.

(** The frames of a run. *)
Definition framesOf (evs : list Event) : list Answer :=
  omap (fun ev => match ev with EvFrame _ data => Some data | _ => None end)
       evs.

(** ** Sample frames, inputs and views *)

Module Sample.

Definition task (i ty : string) : Task :=
  {| messageTime := "2025-01-01T00:00:00.000Z"; messageType := ty;
     t_resultMap := {| fileInfo := []; steps := [] |};
     t_requestId := "r1"; messageId := i; finish := false; isFinal := false;
     id := i |}.

(** A data frame with a payload of tasks. *)
Definition dataFrame (r : option string) (ts : list Task) : Answer :=
  {| finished := false;
     resultMap := Some {| eventData := Some {| ed_tasks := ts;
                                               ed_thought := None;
                                               ed_plan := None |} |};
     packageType := "data"; status := None; reqId := r; responseAll := None |}.

(** The last frame of a successful turn, with a payload and the full text. *)
Definition finalFrame (r text : string) (ts : list Task) : Answer :=
  {| finished := true;
     resultMap := Some {| eventData := Some {| ed_tasks := ts;
                                               ed_thought := None;
                                               ed_plan := None |} |};
     packageType := "data"; status := Some "success"; reqId := Some r;
     responseAll := Some text |}.

(** The same last frame without a partial-results payload. *)
Definition bareFinalFrame (r text : string) : Answer :=
  {| finished := true; resultMap := None; packageType := "data";
     status := Some "success"; reqId := Some r; responseAll := Some text |}.


(** A frame with the quota-exhausted status, carrying a payload. *)
Definition quotaFrame (pt : string) (ts : list Task) : Answer :=
  {| finished := false;
     resultMap := Some {| eventData := Some {| ed_tasks := ts;
                                               ed_thought := None;
                                               ed_plan := None |} |};
     packageType := pt; status := Some "tokenUseUp"; reqId := Some "r1";
     responseAll := None |}.

Definition ask (q : string) : TInputInfo :=
  {| message := Some q; deepThink := false; outputStyle := None;
     ii_files := [] |}.

(** The chat view opened from the home page. *)
Definition freshView : View := initialView None None "session-1".


Definition networkError : RequestError :=
  {| err_status := None; err_message := "Failed to fetch" |}.

Definition conflict : RequestError :=
  {| err_status := Some 409; err_message := "Conflict" |}.

Definition file (name : string) : FileInfo :=
  {| ossUrl := "oss://" ++ name; downloadUrl := "dl://" ++ name;
     domainUrl := "http://" ++ name; fi_requestId := "r0";
     fileName := name |}.

Definition stored (chats : list ChatItem) : ChatSessionResponse :=
  {| success := true; sr_message := "ok";
     sr_data := Some {| sd_chatList := Some chats; sd_sessionId := None;
                        sd_chatTitle := Some "hello" |} |}.

Definition clock (index : nat) : string := "2025-01-02T00:00:00.000Z".

(** Runs with the merge and extraction functions of [SpecUtils]. *)
Definition runSpec : list Event -> View -> View * list Effect :=
  @run SpecUtils.utils.

(** A first turn in progress: the query, one merged data frame. *)
Definition streaming : View :=
  fst (runSpec [EvSend "u1" (ask "hello");
                EvFrame 0 (dataFrame (Some "r1") [task "A" "tool_call"]);
                EvAnimationFrame] freshView).

(** A first turn run to its end, then a second query. *)
Definition secondTurn : View :=
  fst (runSpec [EvSend "u1" (ask "first");
                EvFrame 0 (finalFrame "r1" "done" [task "A" "tool_call"]);
                EvAnimationFrame;
                EvSend "u2" (ask "second")] freshView).

(** A heartbeat that names its turn. *)
Definition heartbeatOf (r : string) : Answer :=
  {| finished := false; resultMap := None; packageType := "heartbeat";
     status := None; reqId := Some r; responseAll := None |}.

(** Two turns, one after the other; every frame reaches the stream opened
    last, and two frames naming the turn arrive back to back before the
    create request settles. *)
Definition twoTurns : list Event :=
  [EvSend "u1" (ask "first");
   EvFrame 0 (dataFrame (Some "r1") [task "A" "tool_call"]);
   EvFrame 0 (dataFrame (Some "r1") [task "B" "tool_call"]);
   EvSaveSettled "r1" (Returns {| success := true; sr_message := "ok";
                                  sr_data := None |});
   EvAnimationFrame; EvAnimationFrame;
   EvFrame 0 (finalFrame "r1" "done" []);
   EvAnimationFrame;
   EvSend "u2" (ask "second");
   EvFrame 1 (dataFrame (Some "r2") [task "C" "tool_call"]);
   EvFrame 1 (heartbeatOf "r2");
   EvAnimationFrame].


(** The second turn in progress: its first data frame has been merged. *)
Definition secondStreaming : View :=
  fst (runSpec [EvFrame 1 (dataFrame (Some "r2") [task "B" "tool_call"]);
                EvAnimationFrame] secondTurn).

(** A turn ended by a quota-exhausted frame. *)
Definition exhausted : View :=
  fst (runSpec [EvSend "u1" (ask "hello");
                EvFrame 0 (quotaFrame "data" [task "A" "tool_call"])]
               freshView).

End Sample.

(** ** Basic facts *)

Section BasicFacts.
Context `{ChatUtils}.

Lemma run_app (evs1 evs2 : list Event) (s : View) :
  run (evs1 ++ evs2) s =
  let '(s1, e1) := run evs1 s in
  let '(s2, e2) := run evs2 s1 in
  (s2, e1 ++ e2).
Proof.
  revert s. induction evs1 as [|ev evs1 IH]; intros s; simpl.
  - destruct (run evs2 s); reflexivity.
  - destruct (step ev s) as [s1 e1]. rewrite IH.
    destruct (run evs1 s1) as [s2 e2]. destruct (run evs2 s2) as [s3 e3].
    now rewrite app_assoc.
Qed.

Lemma run_cons (ev : Event) (evs : list Event) (s : View) :
  run (ev :: evs) s =
  (fst (run evs (fst (step ev s))),
   snd (step ev s) ++ snd (run evs (fst (step ev s)))).
Proof.
  simpl. destruct (step ev s) as [s1 e1]. simpl.
  destruct (run evs s1); reflexivity.
Qed.





End BasicFacts.

(** ** The Workspace gate (C5) *)

Section WorkspaceGate.
Context `{ChatUtils}.









End WorkspaceGate.

(** ** Collaborator failures (C6) *)

Section Failures.
Context `{ChatUtils}.

Lemma saveChatSession_resume_logs (r : string)
    (result : Awaited ChatSessionResponse) :
  exists es, saveChatSession_resume r result = Returns es /\ Forall isLog es.
Proof.
  assert (Hlog : forall lvl msg, isLog (EffLog lvl msg)) by (intros; exact I).
  unfold saveChatSession_resume, tryCatch. destruct result as [resp | e].
  - destruct (success resp); simpl; eexists; (split; [reflexivity |]);
      auto using List.Forall_cons, List.Forall_nil.
  - destruct (hasStatus e 409); eexists; (split; [reflexivity |]);
      auto using List.Forall_cons, List.Forall_nil.
Qed.

Lemma updateChatSession_resume_logs (r : string)
    (result : Awaited ChatSessionResponse) :
  exists es, updateChatSession_resume r result = Returns es /\ Forall isLog es.
Proof.
  assert (Hlog : forall lvl msg, isLog (EffLog lvl msg)) by (intros; exact I).
  unfold updateChatSession_resume, tryCatch. destruct result as [resp | e].
  - destruct (success resp); simpl; eexists; (split; [reflexivity |]);
      auto using List.Forall_cons, List.Forall_nil.
  - eexists; split; [reflexivity | auto using List.Forall_cons, List.Forall_nil].
Qed.

(** C6, as the code has it.  A failed or rejected create or update request
    never leaves [saveChatSession] / [updateChatSession]: both complete
    normally whatever the outcome of the request, they only log, and the
    view is left as it was; a create rejected with status 409 is logged as
    an existing session; a failed read of a stored session is logged too.
    A transport error of the stream is not caught:
    [handleError] throws it on to the stream client, and no state of the
    view changes. *)
Theorem persistence_failures_logged :
  (forall r result,
      exists es, saveChatSession_resume r result = Returns es /\
                 Forall isLog es) /\
  (forall r e,
      err_status e = Some 409 ->
      saveChatSession_resume r (Throws e) =
      Returns [EffLog LogError "Error saving chat session for reqId:";
               EffLog LogInfo "Session already exists for reqId:"]) /\
  (forall r result,
      exists es, updateChatSession_resume r result = Returns es /\
                 Forall isLog es) /\
  (forall r result s,
      fst (step (EvSaveSettled r result) s) = s /\
      Forall isLog (snd (step (EvSaveSettled r result) s)) /\
      fst (step (EvUpdateSettled r result) s) = s /\
      Forall isLog (snd (step (EvUpdateSettled r result) s))) /\
  (forall clock r e fileResponse sessionResult s,
      loadChatSession clock r (Throws e) fileResponse sessionResult s =
      (s, [EffLog LogError "Error loading chat session:"])) /\
  (forall e, handleError e = Throws e) /\
  (forall stream e s, step (EvStreamError stream e) s = (s, [EffUncaught e])).
Proof.
  split; [apply saveChatSession_resume_logs |].
  split.
  { intros r e He. unfold saveChatSession_resume, tryCatch, hasStatus.
    now rewrite He. }
  split; [apply updateChatSession_resume_logs |].
  split; [| split; [reflexivity | split; reflexivity]].
  intros r result s. simpl.
  destruct (saveChatSession_resume_logs r result) as (es & -> & Hes).
  destruct (updateChatSession_resume_logs r result) as (es' & -> & Hes').
  simpl. auto.
Qed.

End Failures.

(** A create answered with a conflict: two log lines, nothing else. *)
Example conflict_is_benign :
  settle (saveChatSession_resume "r1" (Throws Sample.conflict)) =
  [EffLog LogError "Error saving chat session for reqId:";
   EffLog LogInfo "Session already exists for reqId:"].
Proof. reflexivity. Qed.

(** C6 as stated fails for the stream: the transport error reported for
    the stream of the query "hello" leaves [handleError] as an exception,
    and the turn is still marked as loading afterwards. *)
Lemma transport_error_counterexample :
  handleError Sample.networkError <> Returns tt /\
  In (EffUncaught Sample.networkError)
     (snd (Sample.runSpec [EvSend "u1" (Sample.ask "hello");
                           EvStreamError 0 Sample.networkError]
                          Sample.freshView)) /\
  loading (fst (Sample.runSpec [EvSend "u1" (Sample.ask "hello");
                                EvStreamError 0 Sample.networkError]
                               Sample.freshView))
  = true.
Proof.
  split; [discriminate |]. split; [| reflexivity].
  simpl. right. left. reflexivity.
Qed.

(** ** Frames that are not merged: the guard, heartbeats, quota (C2, C4) *)

Section FrameEffects.
Context `{ChatUtils}.

Lemma guardOnly_refl (s : View) : guardOnly s s.
Proof.
  exists (hasNavigated s), (hasSavedSession s), (hasSavedSessionRef s).
  destruct s; reflexivity.
Qed.




Lemma saveOnFirstReqId_guardOnly (cl : Closure) (data : Answer) (s : View) :
  guardOnly s (fst (saveOnFirstReqId cl data s)).
Proof.
  unfold saveOnFirstReqId.
  destruct (_ && _ && _ && _); [| destruct (_ && _); apply guardOnly_refl].
  simpl. exists true, true, true. reflexivity.
Qed.

Lemma deref_mutate (r r' : nat) (f : ChatItem -> ChatItem) (s : View) :
  deref (mutate r f s) r' =
  if decide (r' = r /\ r < length (objs s)) then f (deref s r) else deref s r'.
Proof.
  unfold mutate, deref. simpl.
  destruct (decide (r' = r /\ r < length (objs s))) as [[-> Hlt] | Hn].
  - now rewrite list_lookup_insert_eq.
  - destruct (decide (r' = r)) as [-> | Hne].
    + rewrite list_insert_ge; [reflexivity | lia].
    + now rewrite list_lookup_insert_ne.
Qed.


Lemma deref_mutate_here (r : nat) (s : View) :
  deref (mutate r (set_ci_loading false) s) r =
  set_ci_loading false (deref s r).
Proof.
  rewrite deref_mutate. destruct (decide _) as [_ | Hn]; [reflexivity |].
  unfold deref. rewrite lookup_ge_None_2; [reflexivity | lia].
Qed.

(** What [handleMessage] does with a quota-exhausted frame of a stream. *)
Lemma handleMessage_quota (stream : nat) (cl : Closure) (data : Answer)
    (s : View) :
  streams s !! stream = Some cl -> quotaExhausted data = true ->
  handleMessage stream data s =
  (fst (onTokenUseUp cl (fst (saveOnFirstReqId cl data s))),
   snd (saveOnFirstReqId cl data s) ++
   snd (onTokenUseUp cl (fst (saveOnFirstReqId cl data s)))).
Proof.
  intros Hcl Hq. unfold handleMessage, quotaExhausted in *. rewrite Hcl.
  destruct (saveOnFirstReqId cl data s) as [s1 e1]. rewrite Hq. reflexivity.
Qed.






(** A frame that is neither quota-exhausted nor a heartbeat passes the
    guard and queues its merge callback. *)
Lemma handleMessage_data (stream : nat) (cl : Closure) (data : Answer)
    (s : View) :
  streams s !! stream = Some cl -> quotaExhausted data = false ->
  packageType data <> "heartbeat" ->
  handleMessage stream data s =
  (set_rafQueue (rafQueue (fst (saveOnFirstReqId cl data s)) ++ [(stream, data)])
                (fst (saveOnFirstReqId cl data s)),
   snd (saveOnFirstReqId cl data s) ++ [EffScrollToTop]).
Proof.
  intros Hcl Hq Hp. unfold handleMessage, quotaExhausted in *. rewrite Hcl.
  destruct (saveOnFirstReqId cl data s) as [s1 e1]. rewrite Hq.
  apply String.eqb_neq in Hp. rewrite Hp. reflexivity.
Qed.

End FrameEffects.

Section QuotaAndHeartbeat.
Context `{ChatUtils}.




(** C2, as the code has it.  A quota-exhausted frame ends the turn at once:
    the view and the turn object stop loading, the notice is raised, the
    frame's payload is neither merged nor queued for merging (the outcome is
    the same for every payload), no update is sent, and the displayed task
    list is recomputed from the turn as it stood. *)
Theorem quota_frame_short_circuits (stream : nat) (cl : Closure)
    (data : Answer) (s : View) :
  streams s !! stream = Some cl -> quotaExhausted data = true ->
  let s' := fst (handleMessage stream data s) in
  let es := snd (handleMessage stream data s) in
  let turn := deref s (cl_currentChat cl) in
  loading s' = false /\
  deref s' (cl_currentChat cl) = set_ci_loading false turn /\
  (forall r, r <> cl_currentChat cl -> deref s' r = deref s r) /\
  streams s' = streams s /\ rafQueue s' = rafQueue s /\
  plan s' = plan s /\ chatList s' = chatList s /\
  taskList s' =
    td_taskList (handleTaskData turn (cl_deepThink cl) (multiAgent turn)) /\
  In (EffModalInfo "您的试用次数已用尽" "如需额外申请，请联系 liyang.1236@jd.com") es /\
  updates es = [] /\
  (forall data', reqId data' = reqId data -> quotaExhausted data' = true ->
                 handleMessage stream data' s = handleMessage stream data s).
Proof.
  intros Hcl Hq s' es turn. subst s' es.
  rewrite (handleMessage_quota stream cl data s Hcl Hq). simpl.
  destruct (saveOnFirstReqId_guardOnly cl data s) as (a & b & c & Hg).
  set (s1 := fst (saveOnFirstReqId cl data s)) in *.
  assert (Hd : forall r, deref s1 r = deref s r)
    by (intros r; rewrite Hg; reflexivity).
  assert (Hm : forall v b x r,
             deref (setTaskList v (setLoading b x)) r = deref x r)
    by reflexivity.
  split; [reflexivity |].
  split; [rewrite Hm, deref_mutate_here, Hd; reflexivity |].
  split.
  { intros r Hr. rewrite Hm, deref_mutate.
    destruct (decide _) as [[-> _] | _]; [contradiction | apply Hd]. }
  split; [rewrite Hg; reflexivity |].
  split; [rewrite Hg; reflexivity |].
  split; [rewrite Hg; reflexivity |].
  split; [rewrite Hg; reflexivity |].
  split; [rewrite Hd; reflexivity |].
  split; [apply in_or_app; right; left; reflexivity |].
  split.
  { unfold updates. rewrite List.filter_app. simpl. rewrite app_nil_r.
    unfold saveOnFirstReqId.
    destruct (_ && _ && _ && _); [| destruct (_ && _)]; reflexivity. }
  intros data' Hr Hq'.
  rewrite (handleMessage_quota stream cl data' s Hcl Hq').
  unfold saveOnFirstReqId. rewrite Hr. reflexivity.
Qed.

End QuotaAndHeartbeat.



(** A quota-exhausted frame with a payload, while the first turn is
    streaming task A. *)
Lemma quota_frame_short_circuits_witness :
  let data := Sample.quotaFrame "data" [Sample.task "B" "tool_call"] in
  let cl := {| cl_hasNavigated := false; cl_propRequestId := None;
               cl_chatTitle := ""; cl_deepThink := false;
               cl_currentChat := 1 |} in
  streams Sample.streaming !! 0 = Some cl /\
  quotaExhausted data = true /\
  loading (fst (@handleMessage SpecUtils.utils 0 data Sample.streaming))
    = false /\
  taskList (fst (@handleMessage SpecUtils.utils 0 data Sample.streaming))
    = [Sample.task "A" "tool_call"].
Proof.
  intros data cl.
  assert (Hcl : streams Sample.streaming !! 0 = Some cl) by reflexivity.
  assert (Hq : quotaExhausted data = true) by reflexivity.
  destruct (@quota_frame_short_circuits SpecUtils.utils 0 cl data
              Sample.streaming Hcl Hq)
    as (Hl & _ & _ & _ & _ & _ & _ & Htl & _).
  split; [exact Hcl |]. split; [exact Hq |]. split; [exact Hl |].
  rewrite Htl. reflexivity.
Defined.

(** C2 as stated fails for the frames that follow: a data frame delivered
    after the quota-exhausted frame of the same stream is merged like any
    other; its task B enters the turn and the displayed task list. *)
Lemma quota_then_data_counterexample :
  let later := [EvFrame 0 (Sample.dataFrame (Some "r1")
                                            [Sample.task "B" "tool_call"]);
                EvAnimationFrame] in
  loading Sample.exhausted = false /\
  taskList Sample.exhausted = [] /\
  taskList (fst (Sample.runSpec later Sample.exhausted)) =
    [Sample.task "B" "tool_call"] /\
  ma_tasks (multiAgent (turnOf (fst (Sample.runSpec later Sample.exhausted)) 0))
    = [Sample.task "B" "tool_call"] /\
  taskList (fst (Sample.runSpec later Sample.exhausted)) <>
  taskList Sample.exhausted.
Proof.
  split; [reflexivity |]. split; [reflexivity |]. split; [reflexivity |].
  split; [reflexivity |]. discriminate.
Qed.

(** ** Restoring a turn from history (C9) *)

Section HistoryRestore.

Lemma searchFrom_restoreSession (lastResort : ChatItem -> option string)
    (data : ChatSessionData) (s : View) :
  searchFrom (restoreSession lastResort data s) = searchFrom s.
Proof.
  unfold restoreSession.
  destruct (sd_chatList data); destruct (truthy (sd_chatTitle data));
    reflexivity.
Qed.

Lemma handleViewHistoryFiles_taskList (clock : nat -> string) (reqId : string)
    (files : list FileInfo) (sessionResult : Awaited ChatSessionResponse)
    (s : View) :
  let s' := fst (handleViewHistoryFiles clock reqId files sessionResult s) in
  taskList s' = imap (fun index f => fileTask (clock index) reqId index f) files
  /\ showAction s' = true.
Proof.
  unfold handleViewHistoryFiles.
  destruct sessionResult as [r | e];
    [destruct (success r); destruct (sr_data r) |]; split; reflexivity.
Qed.

(** C9.  When the stored session of a turn has been read back and the view
    was entered from the history, a non-empty file list makes the displayed
    task list exactly one file task per returned file, in order, built from
    the file and the turn id alone (whatever the task list was before), and
    opens the workspace; an empty or missing file list, or a failed listing,
    clears the task list and hides the workspace. *)
Theorem history_restore (clock : nat -> string) (reqId : string)
    (r : ChatSessionResponse) (data : ChatSessionData)
    (fileResponse : Awaited FileListResponse)
    (sessionResult : Awaited ChatSessionResponse) (s : View) :
  success r = true -> sr_data r = Some data ->
  searchFrom s = Some "history" ->
  let s' := fst (loadChatSession clock reqId (Returns r) fileResponse
                                 sessionResult s) in
  match fileResponse with
  | Returns {| results := Some (file :: more) |} =>
      showAction s' = true /\
      length (taskList s') = length (file :: more) /\
      (forall index f,
          (file :: more) !! index = Some f ->
          taskList s' !! index = Some (fileTask (clock index) reqId index f)) /\
      Forall (fun t => messageType t = "file" /\ t_requestId t = reqId /\
                       finish t = true)
             (taskList s')
  | _ => taskList s' = [] /\ showAction s' = false
  end.
Proof.
  intros Hok Hdata Hfrom. unfold loadChatSession. rewrite Hok, Hdata.
  rewrite searchFrom_restoreSession, Hfrom. simpl strict_eq. cbv iota.
  destruct fileResponse as [[[[| file more] |] total] | e];
    try (split; reflexivity).
  set (s1 := restoreSession _ data s).
  pose proof (handleViewHistoryFiles_taskList clock reqId (file :: more)
                sessionResult s1) as [Htl Hshow].
  assert (Hfst : forall (p : View * list Effect) e,
             fst (let '(s0, e0) := p in (s0, e ++ e0)) = fst p)
    by (intros [? ?] ?; reflexivity).
  cbn [results]. cbv beta iota zeta. rewrite Hfst, Htl.
  split; [assumption |]. split; [apply length_imap |]. split.
  - intros index f Hf. rewrite list_lookup_imap, Hf. reflexivity.
  - apply List.Forall_forall. intros t Hin. apply list_elem_of_In in Hin.
    apply elem_of_lookup_imap_1 in Hin. destruct Hin as (i & f & -> & _).
    repeat split.
Qed.

End HistoryRestore.

(** A stored turn with two files, restored into a view that still shows
    the streamed task A. *)
Lemma history_restore_witness :
  let s := Sample.streaming in
  let restored :=
    mkView (propRequestId s) (Some "history") (sessionId s) (chatTitle s)
           (taskList s) (objs s) (chatList s) (plan s) (showAction s)
           (loading s) (hasNavigated s) (currentSSEConnection s)
           (hasSavedSession s) (hasSavedSessionRef s) (streams s)
           (rafQueue s) in
  let files := [Sample.file "report.md"; Sample.file "notes.txt"] in
  let s' := fst (loadChatSession Sample.clock "r0"
                   (Returns (Sample.stored []))
                   (Returns {| results := Some files; totalSize := 2 |})
                   (Returns (Sample.stored [])) restored) in
  success (Sample.stored []) = true /\
  searchFrom restored = Some "history" /\
  taskList restored = [Sample.task "A" "tool_call"] /\
  showAction s' = true /\
  map id (taskList s') = ["r0-0"; "r0-1"] /\
  map messageType (taskList s') = ["file"; "file"].
Proof.
  intros s restored files s'.
  pose proof (history_restore Sample.clock "r0" (Sample.stored []) _
                (Returns {| results := Some files; totalSize := 2 |})
                (Returns (Sample.stored [])) restored
                eq_refl eq_refl eq_refl) as (Hshow & _ & _ & _).
  split; [reflexivity |]. split; [reflexivity |]. split; [reflexivity |].
  split; [exact Hshow |]. split; reflexivity.
Defined.

(** ** The merge callback and the terminal frame (C3) *)

Section Merge.
Context `{ChatUtils}.

Lemma removelast_map {A B} (f : A -> B) (l : list A) :
  removelast (map f l) = map f (removelast l).
Proof.
  induction l as [| x [| y l] IH]; try reflexivity.
  change (f x :: removelast (map f (y :: l)) = f x :: map f (removelast (y :: l))).
  now rewrite IH.
Qed.

Lemma replaceLast_map {A B} (f : A -> B) (l : list A) (x : A) :
  map f (replaceLast l x) = replaceLast (map f l) (f x).
Proof. unfold replaceLast. now rewrite map_app, removelast_map. Qed.

Lemma last_replaceLast {A} (l : list A) (x : A) :
  last (replaceLast l x) = Some x.
Proof. unfold replaceLast. apply last_snoc. Qed.

Lemma deref_alloc_new (c : ChatItem) (s : View) :
  deref (alloc c s) (length (objs s)) = c.
Proof.
  unfold deref, alloc. simpl.
  rewrite lookup_app_r, Nat.sub_diag by lia. reflexivity.
Qed.

Lemma merged_turn (stream : nat) (cl : Closure) (ed : EventData) (s : View) :
  deref (merged stream cl ed s) (length (objs s)) =
  combineData ed (deref s (cl_currentChat cl)).
Proof.
  unfold merged. cbv zeta.
  set (c := combineData ed _). set (tl := td_taskList _). set (p := td_plan _).
  unfold openAction. destruct (shouldShowWorkspace tl); apply deref_alloc_new.
Qed.

Lemma merged_fields (stream : nat) (cl : Closure) (ed : EventData) (s : View) :
  let m := merged stream cl ed s in
  let turn := combineData ed (deref s (cl_currentChat cl)) in
  objs m = objs s ++ [turn] /\
  streams m = <[stream := set_cl_currentChat (length (objs s)) cl]> (streams s) /\
  chatList m = chatList s /\ rafQueue m = rafQueue s /\
  sessionId m = sessionId s /\
  taskList m =
    td_taskList (handleTaskData turn (cl_deepThink cl) (multiAgent turn)) /\
  plan m = td_plan (handleTaskData turn (cl_deepThink cl) (multiAgent turn)).
Proof.
  cbv zeta. unfold merged. cbv zeta.
  assert (Hd : forall x, deref (set_streams x (alloc (combineData ed (deref s (cl_currentChat cl))) s))
                               (length (objs s)) =
                         combineData ed (deref s (cl_currentChat cl)))
    by (intros x; apply deref_alloc_new).
  rewrite Hd. unfold openAction.
  destruct (shouldShowWorkspace _); repeat split.
Qed.

(** The merge callback of a frame with a payload, by cases on the frame. *)
Lemma animationFrameCallback_merge (stream : nat) (cl : Closure)
    (data : Answer) (ed : EventData) (s : View) :
  streams s !! stream = Some cl -> eventDataOf data = Some ed ->
  let m := merged stream cl ed s in
  let cur := length (objs s) in
  animationFrameCallback stream data s =
  if finished data
  then
    let m1 := setLoading false (mutate cur (set_ci_loading false) m) in
    if strict_eq (status data) "success" && truthy (reqId data)
       && truthy (responseAll data)
    then
      let m2 := mutate cur (set_response (default "" (responseAll data))) m1 in
      (set_chatList (replaceLast (chatList m2) cur) m2,
       EffLog LogInfo "Task finished, updating session with responseAll:" ::
       updateChatSession (default "" (reqId data))
         {| sd_chatList :=
              Some (replaceLast (chatListValues m2) (deref m2 cur));
            sd_sessionId := Some (sessionId m2);
            sd_chatTitle := titleFor (cl_chatTitle cl) m2 |})
    else (set_chatList (replaceLast (chatList m1) cur) m1, [])
  else (set_chatList (replaceLast (chatList m) cur) m, []).
Proof.
  intros Hcl Hed. cbv zeta. unfold animationFrameCallback, merged.
  rewrite Hcl, Hed. cbv zeta.
  destruct (finished data); [| reflexivity].
  destruct (_ && _ && _); reflexivity.
Qed.

End Merge.

Section TerminalFrame.
Context `{ChatUtils}.

Lemma deref_ext (a b : View) (r : nat) : objs a = objs b -> deref a r = deref b r.
Proof. unfold deref. now intros ->. Qed.

Lemma chatListValues_ext (a b : View) :
  objs a = objs b -> chatList a = chatList b ->
  chatListValues a = chatListValues b.
Proof.
  intros Ho Hc. unfold chatListValues. rewrite Hc.
  apply map_ext. intros r. now apply deref_ext.
Qed.

Lemma titleFor_ext (t : string) (a b : View) :
  objs a = objs b -> chatList a = chatList b -> titleFor t a = titleFor t b.
Proof.
  intros Ho Hc. unfold titleFor. now rewrite (chatListValues_ext a b Ho Hc).
Qed.

Lemma deref_mutate_in (r : nat) (f : ChatItem -> ChatItem) (s : View) :
  r < length (objs s) -> deref (mutate r f s) r = f (deref s r).
Proof.
  intros Hr. rewrite deref_mutate.
  destruct (decide _) as [_ | Hn]; [reflexivity | exfalso; auto].
Qed.

(** The merge callback of a frame with a payload that ends the turn
    successfully with a full response text. *)
Lemma animationFrameCallback_terminal (stream : nat) (cl : Closure)
    (data : Answer) (ed : EventData) (s : View) :
  streams s !! stream = Some cl -> eventDataOf data = Some ed ->
  finished data = true -> strict_eq (status data) "success" = true ->
  truthy (reqId data) = true -> truthy (responseAll data) = true ->
  let s' := fst (animationFrameCallback stream data s) in
  let es := snd (animationFrameCallback stream data s) in
  let turn' :=
    set_response (default "" (responseAll data))
      (set_ci_loading false (combineData ed (deref s (cl_currentChat cl)))) in
  turnOf s' stream = turn' /\
  response (turnOf s' stream) = default "" (responseAll data) /\
  loading s' = false /\
  last (chatListValues s') = Some turn' /\
  updates es =
    [EffUpdateSession (default "" (reqId data))
       {| sd_chatList := Some (chatListValues s');
          sd_sessionId := Some (sessionId s);
          sd_chatTitle :=
            titleFor (cl_chatTitle cl) (set_chatList (chatList s) s') |}].
Proof.
  intros Hcl Hed Hfin Hst Hreq Hra. cbv zeta.
  rewrite (animationFrameCallback_merge stream cl data ed s Hcl Hed).
  cbv zeta. rewrite Hfin, Hst, Hreq, Hra. cbn [andb fst snd].
  destruct (merged_fields stream cl ed s)
    as (Hobjs & Hstreams & Hchat & _ & Hsess & _ & _).
  pose proof (merged_turn stream cl ed s) as Hturn.
  set (m := merged stream cl ed s) in *.
  set (cur := length (objs s)) in *.
  set (m1 := setLoading false (mutate cur (set_ci_loading false) m)).
  set (m2 := mutate cur (set_response (default "" (responseAll data))) m1).
  assert (Hlen : cur < length (objs m))
    by (rewrite Hobjs, length_app; simpl; lia).
  assert (Hlen1 : cur < length (objs m1))
    by (unfold m1, mutate; simpl; rewrite length_insert; exact Hlen).
  assert (Hd1 : deref m1 cur = set_ci_loading false (deref m cur)).
  { unfold m1. rewrite <- (deref_mutate_in cur (set_ci_loading false) m Hlen).
    reflexivity. }
  assert (Hd2 : deref m2 cur =
                set_response (default "" (responseAll data))
                  (set_ci_loading false
                     (combineData ed (deref s (cl_currentChat cl))))).
  { unfold m2. now rewrite deref_mutate_in, Hd1, Hturn. }
  assert (Hchat2 : chatList m2 = chatList s) by exact Hchat.
  assert (Hval : chatListValues (set_chatList (replaceLast (chatList m2) cur) m2)
                 = replaceLast (chatListValues m2) (deref m2 cur)).
  { unfold chatListValues at 1. cbn [chatList set_chatList].
    rewrite (map_ext _ (deref m2)) by (intros; now apply deref_ext).
    apply replaceLast_map. }
  assert (Hto : turnOf (set_chatList (replaceLast (chatList m2) cur) m2) stream
                = deref m2 cur).
  { unfold turnOf.
    change (streams (set_chatList (replaceLast (chatList m2) cur) m2))
      with (streams m).
    rewrite Hstreams, list_lookup_insert_eq
      by (now apply lookup_lt_Some in Hcl).
    reflexivity. }
  split; [now rewrite Hto |].
  split; [now rewrite Hto, Hd2 |].
  split; [reflexivity |].
  split; [rewrite Hval, <- Hd2; apply last_replaceLast |].
  unfold updates. cbn [List.filter isUpdate updateChatSession].
  rewrite Hval.
  change (sessionId m2) with (sessionId m). rewrite Hsess.
  rewrite (titleFor_ext (cl_chatTitle cl) m2
             (set_chatList (chatList s)
                (set_chatList (replaceLast (chatList m2) cur) m2))
             eq_refl Hchat2).
  reflexivity.
Qed.

Lemma updates_saveOnFirstReqId (cl : Closure) (data : Answer) (s : View) :
  updates (snd (saveOnFirstReqId cl data s)) = [].
Proof.
  unfold saveOnFirstReqId.
  destruct (_ && _ && _ && _); [| destruct (_ && _)]; reflexivity.
Qed.

(** C3, as the code has it.  A frame that is not a heartbeat, carries a
    payload, is finished, has status "success", a turn id and a full
    response text: once its merge callback has run, the text has replaced
    the response of the turn (it is not appended to what was accumulated),
    the turn has stopped loading and holds the last place of the chat list,
    and exactly one update has been sent for the turn id, whose body is the
    whole chat list as the view now holds it. *)
Theorem terminal_frame_updates (stream : nat) (cl : Closure) (data : Answer)
    (ed : EventData) (s : View) :
  streams s !! stream = Some cl -> eventDataOf data = Some ed ->
  packageType data <> "heartbeat" ->
  finished data = true -> strict_eq (status data) "success" = true ->
  truthy (reqId data) = true -> truthy (responseAll data) = true ->
  rafQueue s = [] ->
  let s' := fst (run [EvFrame stream data; EvAnimationFrame] s) in
  let es := snd (run [EvFrame stream data; EvAnimationFrame] s) in
  let turn' :=
    set_response (default "" (responseAll data))
      (set_ci_loading false (combineData ed (deref s (cl_currentChat cl)))) in
  turnOf s' stream = turn' /\
  response (turnOf s' stream) = default "" (responseAll data) /\
  loading s' = false /\
  last (chatListValues s') = Some turn' /\
  updates es =
    [EffUpdateSession (default "" (reqId data))
       {| sd_chatList := Some (chatListValues s');
          sd_sessionId := Some (sessionId s);
          sd_chatTitle :=
            titleFor (cl_chatTitle cl) (set_chatList (chatList s) s') |}].
Proof.
  intros Hcl Hed Hp Hfin Hst Hreq Hra Hraf.
  assert (Hq : quotaExhausted data = false).
  { unfold quotaExhausted. destruct (status data) as [st |]; [| reflexivity].
    simpl in Hst |- *. apply String.eqb_eq in Hst. now subst st. }
  rewrite !run_cons. cbn [run fst snd step].
  rewrite (handleMessage_data stream cl data s Hcl Hq Hp). cbn [fst snd].
  destruct (saveOnFirstReqId_guardOnly cl data s) as (a & b & c & Hg).
  pose proof (updates_saveOnFirstReqId cl data s) as Hup.
  rewrite Hg.
  cbn [rafQueue set_rafQueue set_hasSavedSessionRef setHasSavedSession
       setHasNavigated].
  rewrite Hraf. cbn [app].
  match goal with
  | |- context [animationFrameCallback _ _ ?x] => set (s1 := x)
  end.
  assert (Hcl1 : streams s1 !! stream = Some cl) by exact Hcl.
  pose proof (animationFrameCallback_terminal stream cl data ed s1
                Hcl1 Hed Hfin Hst Hreq Hra) as (H1 & H2 & H3 & H4 & H5).
  split; [exact H1 |]. split; [exact H2 |]. split; [exact H3 |].
  split; [exact H4 |].
  unfold updates in *. rewrite !List.filter_app, Hup. cbn [List.filter isUpdate app].
  rewrite app_nil_r. exact H5.
Qed.

End TerminalFrame.

(** The terminal frame of the turn that is streaming task A. *)
Lemma terminal_frame_updates_witness :
  let data := Sample.finalFrame "r1" "Hello back" [] in
  let cl := {| cl_hasNavigated := false; cl_propRequestId := None;
               cl_chatTitle := ""; cl_deepThink := false;
               cl_currentChat := 1 |} in
  let ed := {| ed_tasks := []; ed_thought := None; ed_plan := None |} in
  let evs := [EvFrame 0 data; EvAnimationFrame] in
  streams Sample.streaming !! 0 = Some cl /\
  eventDataOf data = Some ed /\
  rafQueue Sample.streaming = [] /\
  response (turnOf (fst (Sample.runSpec evs Sample.streaming)) 0)
    = "Hello back" /\
  loading (fst (Sample.runSpec evs Sample.streaming)) = false /\
  length (updates (snd (Sample.runSpec evs Sample.streaming))) = 1.
Proof.
  intros data cl ed evs.
  assert (Hp : packageType data <> "heartbeat") by discriminate.
  destruct (@terminal_frame_updates SpecUtils.utils 0 cl data ed
              Sample.streaming eq_refl eq_refl Hp eq_refl eq_refl eq_refl
              eq_refl eq_refl)
    as (_ & Hresp & Hload & _ & Hupd).
  split; [reflexivity |]. split; [reflexivity |]. split; [reflexivity |].
  split; [exact Hresp |]. split; [exact Hload |].
  unfold Sample.runSpec, evs. rewrite Hupd. reflexivity.
Defined.

(** C3 as stated fails for a terminal frame that carries the full text but
    no partial-results payload: its merge callback does nothing, so no
    update is sent, the response stays as accumulated and the turn keeps
    loading.  The same holds when the status is not "success". *)
Lemma terminal_without_payload_counterexample :
  let bare := Sample.bareFinalFrame "r1" "Hello back" in
  let evs := [EvFrame 0 bare; EvAnimationFrame] in
  finished bare = true /\ responseAll bare = Some "Hello back" /\
  updates (snd (Sample.runSpec evs Sample.streaming)) = [] /\
  response (turnOf (fst (Sample.runSpec evs Sample.streaming)) 0) = "" /\
  loading (fst (Sample.runSpec evs Sample.streaming)) = true.
Proof. repeat split. Qed.

(** ** The create-once guard (C1, C10) *)

Section CreateOnce.
Context `{ChatUtils}.








Lemma sendMessage_effects (r : string) (i : TInputInfo) (s : View) :
  let s' := fst (sendMessage r i s) in
  creates (snd (sendMessage r i s)) = [] /\
  propRequestId s' = propRequestId s /\
  (s' = s \/
   exists cl, streams s' = streams s ++ [cl] /\
              cl_propRequestId cl = propRequestId s).
Proof.
  cbv zeta. unfold sendMessage.
  destruct (truthy (propRequestId s) && blankMessage (message i)).
  - repeat split. now left.
  - cbn [fst snd]. split; [reflexivity |].
    destruct (String.eqb (chatTitle s) ""); (split; [reflexivity |]);
      right; eexists; split; reflexivity.
Qed.


End CreateOnce.

Section CreateOnceRuns.
Context `{ChatUtils}.




End CreateOnceRuns.

Section CreateOncePerTurn.
Context `{ChatUtils}.






End CreateOncePerTurn.



(** ** Superseded streams (C7) *)

Section Superseded.
Context `{ChatUtils}.

Lemma currentSSEConnection_step (ev : Event) (s : View) :
  currentSSEConnection (fst (step ev s)) = currentSSEConnection s.
Proof.
  destruct ev as [r i | stream data | | r o | r o | stream e | stream | b];
    cbn [step fst]; try reflexivity.
  - unfold sendMessage.
    destruct (_ && _); [reflexivity |].
    destruct (String.eqb (chatTitle s) ""); reflexivity.
  - unfold handleMessage.
    destruct (streams s !! stream) as [cl |]; [| reflexivity].
    destruct (saveOnFirstReqId_guardOnly cl data s) as (a & b & c & Hg).
    destruct (saveOnFirstReqId cl data s) as [s1 e1]. simpl in Hg. subst s1.
    unfold onTokenUseUp.
    destruct (strict_eq _ _); [| destruct (negb _)]; reflexivity.
  - destruct (rafQueue s) as [| [stream data] rest]; [reflexivity |].
    destruct (streams (set_rafQueue rest s) !! stream) as [cl |] eqn:Hcl;
      [destruct (eventDataOf data) as [ed |] eqn:Hed |].
    + rewrite (animationFrameCallback_merge stream cl data ed _ Hcl Hed).
      cbv zeta. unfold merged, openAction. cbv zeta.
      destruct (finished data); [destruct (_ && _ && _) |];
        destruct (shouldShowWorkspace _); reflexivity.
    + unfold animationFrameCallback. now rewrite Hcl, Hed.
    + unfold animationFrameCallback. now rewrite Hcl.
Qed.

Lemma currentSSEConnection_run (evs : list Event) (s : View) :
  currentSSEConnection (fst (run evs s)) = currentSSEConnection s.
Proof.
  revert s. induction evs as [| ev evs IH]; intros s; [reflexivity |].
  rewrite run_cons. cbn [fst]. now rewrite IH, currentSSEConnection_step.
Qed.

Lemma sendMessage_keeps_streams (r : string) (i : TInputInfo) (s : View) :
  streams s `prefix_of` streams (fst (sendMessage r i s)).
Proof.
  destruct (sendMessage_effects r i s) as (_ & _ & [-> | (cl & -> & _)]).
  - reflexivity.
  - now apply prefix_app_r.
Qed.

(** C7, as the code has it.  No generation token exists: the connection
    cell is never assigned by any callback, and a new submission keeps the
    closures of all earlier streams.  A data frame is handled in the same way
    whether or not its stream has been superseded: its payload is merged into
    the turn of its own stream, and the view's task list and plan are
    recomputed from that turn, which also takes the last place of the chat
    list. *)
Theorem superseded_stream_still_merges (stream : nat) (cl : Closure)
    (data : Answer) (ed : EventData) (s : View) :
  streams s !! stream = Some cl -> eventDataOf data = Some ed ->
  quotaExhausted data = false -> packageType data <> "heartbeat" ->
  rafQueue s = [] ->
  let s' := fst (run [EvFrame stream data; EvAnimationFrame] s) in
  let turn' := combineData ed (deref s (cl_currentChat cl)) in
  taskList s' =
    td_taskList (handleTaskData turn' (cl_deepThink cl) (multiAgent turn')) /\
  plan s' =
    td_plan (handleTaskData turn' (cl_deepThink cl) (multiAgent turn')) /\
  last (chatList s') = Some (length (objs s)) /\
  streams s' !! stream = Some (set_cl_currentChat (length (objs s)) cl) /\
  (forall evs s0,
      currentSSEConnection (fst (run evs s0)) = currentSSEConnection s0) /\
  (forall r i s0, streams s0 `prefix_of` streams (fst (sendMessage r i s0))).
Proof.
  intros Hcl Hed Hq Hp Hraf. cbv zeta.
  split; [| split; [| split; [| split; [| split]]]];
    try apply currentSSEConnection_run; try apply sendMessage_keeps_streams.
  all: rewrite run_cons; cbn [run fst step];
    rewrite (handleMessage_data stream cl data s Hcl Hq Hp); cbn [fst];
    destruct (saveOnFirstReqId_guardOnly cl data s) as (a & b & c & Hg);
    rewrite Hg; cbn [rafQueue set_rafQueue set_hasSavedSessionRef
                     setHasSavedSession setHasNavigated];
    rewrite Hraf; cbn [app];
    match goal with
    | |- context [animationFrameCallback _ _ ?x] =>
        set (s1 := x);
        assert (Hcl1 : streams s1 !! stream = Some cl) by exact Hcl;
        rewrite (animationFrameCallback_merge stream cl data ed s1 Hcl1 Hed);
        destruct (merged_fields stream cl ed s1)
          as (Hobjs & Hstreams & Hchat & _ & _ & Htl & Hplan);
        cbv zeta
    end.
  - destruct (finished data); [destruct (_ && _ && _) |]; exact Htl.
  - destruct (finished data); [destruct (_ && _ && _) |]; exact Hplan.
  - destruct (finished data); [destruct (_ && _ && _) |];
      apply last_replaceLast.
  - assert (Hins : <[stream := set_cl_currentChat (length (objs s)) cl]>
                     (streams s) !! stream
                   = Some (set_cl_currentChat (length (objs s)) cl))
      by (apply list_lookup_insert_eq; now apply lookup_lt_Some in Hcl).
    destruct (finished data); [destruct (_ && _ && _) |];
      cbn [fst streams set_chatList mutate set_objs setLoading];
      rewrite Hstreams; exact Hins.
Qed.

End Superseded.

(** A data frame of the first stream while the second turn is streaming. *)
Lemma superseded_stream_still_merges_witness :
  let late := Sample.dataFrame (Some "r1") [Sample.task "C" "tool_call"] in
  let cl := {| cl_hasNavigated := false; cl_propRequestId := None;
               cl_chatTitle := ""; cl_deepThink := false;
               cl_currentChat := 1 |} in
  let ed := {| ed_tasks := [Sample.task "C" "tool_call"];
               ed_thought := None; ed_plan := None |} in
  superseded Sample.secondStreaming 0 /\
  streams Sample.secondStreaming !! 0 = Some cl /\
  eventDataOf late = Some ed /\
  rafQueue Sample.secondStreaming = [] /\
  map id (taskList (fst (Sample.runSpec [EvFrame 0 late; EvAnimationFrame]
                                        Sample.secondStreaming)))
  = ["A"; "C"].
Proof.
  intros late cl ed.
  assert (Hp : packageType late <> "heartbeat") by discriminate.
  destruct (@superseded_stream_still_merges SpecUtils.utils 0 cl late ed
              Sample.secondStreaming eq_refl eq_refl eq_refl Hp eq_refl)
    as (Htl & _).
  split; [vm_compute; lia |]. split; [reflexivity |]. split; [reflexivity |].
  split; [reflexivity |].
  unfold Sample.runSpec. rewrite Htl. vm_compute. reflexivity.
Defined.

(** C7 as stated fails: nothing detects the callbacks of a superseded
    stream.  While the second turn is streaming (task B displayed, the second
    turn last in the chat list), a late data frame of the first stream puts
    the first turn's tasks A and C on display and the first turn in the last
    place of the chat list. *)
Lemma late_callback_counterexample :
  let late := [EvFrame 0 (Sample.dataFrame (Some "r1")
                                           [Sample.task "C" "tool_call"]);
               EvAnimationFrame] in
  let s := Sample.secondStreaming in
  let s' := fst (Sample.runSpec late s) in
  superseded s 0 /\
  map id (taskList s) = ["B"] /\
  query <$> last (chatListValues s) = Some "second" /\
  map id (taskList s') = ["A"; "C"] /\
  query <$> last (chatListValues s') = Some "first" /\
  taskList s' <> taskList s.
Proof.
  cbv zeta. split; [vm_compute; lia |].
  split; [vm_compute; reflexivity |]. split; [vm_compute; reflexivity |].
  split; [vm_compute; reflexivity |]. split; [vm_compute; reflexivity |].
  vm_compute. discriminate.
Qed.

(** ** Upsert by id and the growth of the task list (C8) *)

Section Upsert.
Import SpecUtils.




Lemma upsertTask_length (l : list Task) (t : Task) :
  length l <= length (upsertTask l t) <= S (length l).
Proof.
  unfold upsertTask.
  destruct (list_find (fun y => id y = id t) l) as [[i x] |].
  - rewrite length_insert. lia.
  - rewrite length_app. simpl. lia.
Qed.



End Upsert.

Section Growth.
Context `{ChatUtils}.








End Growth.

Section TaskListGrowth.





End TaskListGrowth.


(** The spec's own example of an upsert, and a run in which the task list
    of the first turn grows from A to A, C. *)
Example upsert_twice_example :
  SpecUtils.upsertTask
    (SpecUtils.upsertTask [Sample.task "A" "tool_call"]
                          (Sample.task "B" "tool_call"))
    (Sample.task "B" "result")
  = [Sample.task "A" "tool_call"; Sample.task "B" "result"] /\
  wfView Sample.secondStreaming /\
  map id (turnTasks Sample.secondStreaming 0) = ["A"] /\
  map id (turnTasks
            (fst (Sample.runSpec
                    [EvFrame 0 (Sample.dataFrame (Some "r1")
                                                 [Sample.task "C" "tool_call"]);
                     EvAnimationFrame] Sample.secondStreaming)) 0)
  = ["A"; "C"].
Proof.
  split; [vm_compute; reflexivity |].
  split; [vm_compute; repeat constructor |].
  split; vm_compute; reflexivity.
Qed.


(** ** Blank messages *)

Section BlankMessages.

Lemma trim_blank (m : string) :
  String.eqb (trim m) "" = whiteSpaceOnly m.
Proof.
  unfold trim. induction m as [| a m IH]; [reflexivity |].
  cbn [trimStart whiteSpaceOnly].
  destruct (isWhiteSpace a) eqn:Ha; [exact IH |].
  cbn [trimEnd andb]. rewrite Ha. reflexivity.
Qed.

Lemma blankMessage_blank (m : option string) : blankMessage m = blank m.
Proof.
  destruct m as [m |]; [| reflexivity].
  unfold blankMessage, blank, truthy. cbn [default].
  rewrite trim_blank. destruct m; reflexivity.
Qed.

(** A submission is dropped, leaving the view as it is and opening no
    stream, exactly when the view was opened on a request id and the
    message is missing or consists of white space only; in a view without
    a request id every submission opens a stream, a blank one too. *)
Theorem blank_message_dropped (requestId : string) (inputInfo : TInputInfo)
    (s : View) :
  sendMessage requestId inputInfo s = (s, []) <->
  truthy (propRequestId s) = true /\ blank (message inputInfo) = true.
Proof.
  unfold sendMessage. rewrite blankMessage_blank.
  destruct (truthy (propRequestId s)); destruct (blank (message inputInfo));
    cbn [andb]; split;
    try (intros [Ha Hb]; first [discriminate Ha | discriminate Hb]);
    try (intros Heq; apply (f_equal snd) in Heq; cbn [snd] in Heq;
         discriminate Heq).
  - intros _. split; reflexivity.
  - intros _. reflexivity.
Qed.

End BlankMessages.

(** ** The chat title *)

Section ChatTitle.
Context `{ChatUtils}.

Lemma chatTitle_handleMessage (stream : nat) (data : Answer) (s : View) :
  chatTitle (fst (handleMessage stream data s)) = chatTitle s.
Proof.
  unfold handleMessage. destruct (streams s !! stream) as [cl |]; [| reflexivity].
  destruct (saveOnFirstReqId_guardOnly cl data s) as (a & b & c & Hg).
  destruct (saveOnFirstReqId cl data s) as [s1 e1]. simpl in Hg. subst s1.
  unfold onTokenUseUp.
  destruct (strict_eq (status data) "tokenUseUp");
    [| destruct (negb (String.eqb (packageType data) "heartbeat"))];
    reflexivity.
Qed.

Lemma chatTitle_animationFrameCallback (stream : nat) (data : Answer)
    (s : View) :
  chatTitle (fst (animationFrameCallback stream data s)) = chatTitle s.
Proof.
  destruct (streams s !! stream) as [cl |] eqn:Hcl;
    [destruct (eventDataOf data) as [ed |] eqn:Hed |].
  - rewrite (animationFrameCallback_merge stream cl data ed s Hcl Hed).
    cbv zeta.
    assert (Hm : chatTitle (merged stream cl ed s) = chatTitle s).
    { unfold merged, openAction. cbv zeta.
      destruct (shouldShowWorkspace _); reflexivity. }
    destruct (finished data); [destruct (_ && _ && _) |]; exact Hm.
  - unfold animationFrameCallback. rewrite Hcl, Hed. reflexivity.
  - unfold animationFrameCallback. rewrite Hcl. reflexivity.
Qed.

(** Only an accepted submission writes the title, and only an empty one. *)
Lemma chatTitle_step (ev : Event) (s : View) :
  chatTitle (fst (step ev s)) =
  match ev with
  | EvSend _ inputInfo =>
      if truthy (propRequestId s) && blankMessage (message inputInfo)
      then chatTitle s
      else if String.eqb (chatTitle s) ""
           then default "" (message inputInfo) else chatTitle s
  | _ => chatTitle s
  end.
Proof.
  destruct ev as [r i | stream data | | r o | r o | stream e | stream | b];
    cbn [step]; try reflexivity.
  - unfold sendMessage.
    destruct (truthy (propRequestId s) && blankMessage (message i));
      [reflexivity |].
    destruct (String.eqb (chatTitle s) ""); reflexivity.
  - apply chatTitle_handleMessage.
  - destruct (rafQueue s) as [| [stream data] rest]; [reflexivity |].
    now rewrite chatTitle_animationFrameCallback.
Qed.

Lemma chatTitle_kept (evs : list Event) (s : View) :
  chatTitle s <> "" -> chatTitle (fst (run evs s)) = chatTitle s.
Proof.
  revert s. induction evs as [| ev evs IH]; intros s Hs; [reflexivity |].
  rewrite run_cons. cbn [fst].
  assert (Hstep : chatTitle (fst (step ev s)) = chatTitle s).
  { rewrite chatTitle_step. destruct ev; try reflexivity.
    destruct (_ && _); [reflexivity |].
    destruct (String.eqb (chatTitle s) "") eqn:E; [| reflexivity].
    apply String.eqb_eq in E. contradiction. }
  rewrite IH; [exact Hstep | now rewrite Hstep].
Qed.

(** Once the title is not empty at some point of a run, it is the same at
    every later point: no submission, frame, merge callback, settled
    request or workspace action changes it. *)
Theorem title_set_once (evs1 evs2 : list Event) (s : View) :
  chatTitle (fst (run evs1 s)) <> "" ->
  chatTitle (fst (run (evs1 ++ evs2) s)) = chatTitle (fst (run evs1 s)).
Proof.
  intros Hset. rewrite run_app.
  destruct (run evs1 s) as [s1 e1] eqn:E1. cbn [fst] in Hset |- *.
  pose proof (chatTitle_kept evs2 s1 Hset) as Hk.
  destruct (run evs2 s1) as [s2 e2]. exact Hk.
Qed.

(** While the title is empty, the first submission that is accepted with a
    non-empty message makes that message the title, for the rest of the
    run. *)
Theorem title_is_first_query (requestId : string) (inputInfo : TInputInfo)
    (m : string) (evs : list Event) (s : View) :
  chatTitle s = "" -> message inputInfo = Some m -> whiteSpaceOnly m = false ->
  chatTitle (fst (run (EvSend requestId inputInfo :: evs) s)) = m.
Proof.
  intros Hempty Hm Hws. rewrite run_cons. cbn [fst].
  assert (Hstep : chatTitle (fst (step (EvSend requestId inputInfo) s)) = m).
  { rewrite chatTitle_step, blankMessage_blank, Hm, Hempty.
    cbn [blank]. rewrite Hws, andb_false_r. reflexivity. }
  rewrite chatTitle_kept; [exact Hstep |].
  rewrite Hstep. intros ->. discriminate Hws.
Qed.

End ChatTitle.

Lemma title_set_once_witness :
  let evs1 := [EvSend "u1" (Sample.ask "first")] in
  let evs2 := [EvFrame 0 (Sample.finalFrame "r1" "done" []);
               EvAnimationFrame; EvSend "u2" (Sample.ask "second")] in
  chatTitle (fst (Sample.runSpec evs1 Sample.freshView)) = "first" /\
  chatTitle (fst (Sample.runSpec (evs1 ++ evs2) Sample.freshView)) = "first".
Proof.
  intros evs1 evs2. split; [reflexivity |].
  assert (Hset : chatTitle (fst (Sample.runSpec evs1 Sample.freshView)) <> "")
    by (vm_compute; discriminate).
  exact (eq_trans
           (@title_set_once SpecUtils.utils evs1 evs2 Sample.freshView Hset)
           eq_refl).
Defined.

Lemma title_is_first_query_witness :
  chatTitle Sample.freshView = "" /\
  chatTitle (fst (Sample.runSpec
                    [EvSend "u1" (Sample.ask "first");
                     EvSend "u2" (Sample.ask "second")]
                    Sample.freshView)) = "first".
Proof.
  split; [reflexivity |].
  apply (@title_is_first_query SpecUtils.utils "u1" (Sample.ask "first")
           "first" [EvSend "u2" (Sample.ask "second")] Sample.freshView);
    reflexivity.
Defined.

(** ** Streams and turns *)

Section StreamsAndTurns.
Context `{ChatUtils}.

Lemma queries_app (es es' : list Effect) :
  queries (es ++ es') = queries es ++ queries es'.
Proof. apply List.filter_app. Qed.

Lemma openedStreams_app (es es' : list Effect) :
  openedStreams (es ++ es') = openedStreams es ++ openedStreams es'.
Proof. apply omap_app. Qed.

Lemma length_replaceLast {A} (l : list A) (x : A) :
  l <> [] -> length (replaceLast l x) = length l.
Proof.
  intros Hl. unfold replaceLast.
  rewrite length_app, removelast_firstn_len, length_take.
  destruct l; [contradiction | simpl; lia].
Qed.

Lemma queries_saveOnFirstReqId (cl : Closure) (data : Answer) (s : View) :
  queries (snd (saveOnFirstReqId cl data s)) = [] /\
  openedStreams (snd (saveOnFirstReqId cl data s)) = [].
Proof.
  unfold saveOnFirstReqId.
  destruct (_ && _ && _ && _); [| destruct (_ && _)]; split; reflexivity.
Qed.

(** A frame opens no stream and leaves the streams and the chat list. *)
Lemma handleMessage_counts (stream : nat) (data : Answer) (s : View) :
  let s' := fst (handleMessage stream data s) in
  let es := snd (handleMessage stream data s) in
  streams s' = streams s /\ chatList s' = chatList s /\
  queries es = [] /\ openedStreams es = [].
Proof.
  cbv zeta. unfold handleMessage.
  destruct (streams s !! stream) as [cl |]; [| repeat split].
  destruct (saveOnFirstReqId_guardOnly cl data s) as (a & b & c & Hg).
  destruct (queries_saveOnFirstReqId cl data s) as [Hq Ho].
  destruct (saveOnFirstReqId cl data s) as [s1 e1]. simpl in Hg, Hq, Ho.
  subst s1. unfold onTokenUseUp.
  destruct (strict_eq (status data) "tokenUseUp");
    [| destruct (negb (String.eqb (packageType data) "heartbeat"))];
    cbn [fst snd]; rewrite ?queries_app, ?openedStreams_app, ?Hq, ?Ho;
    repeat split.
Qed.

(** The merge callback opens no stream, keeps the number of streams and,
    when the chat list is not empty, its length. *)
Lemma animationFrameCallback_counts (stream : nat) (data : Answer) (s : View) :
  let s' := fst (animationFrameCallback stream data s) in
  let es := snd (animationFrameCallback stream data s) in
  length (streams s') = length (streams s) /\
  (chatList s <> [] -> length (chatList s') = length (chatList s)) /\
  queries es = [] /\ openedStreams es = [].
Proof.
  cbv zeta.
  destruct (streams s !! stream) as [cl |] eqn:Hcl;
    [destruct (eventDataOf data) as [ed |] eqn:Hed |].
  - rewrite (animationFrameCallback_merge stream cl data ed s Hcl Hed).
    cbv zeta.
    destruct (merged_fields stream cl ed s) as (_ & Hstreams & Hchat & _).
    assert (Hlen : length (streams (merged stream cl ed s))
                   = length (streams s))
      by (rewrite Hstreams; apply length_insert).
    assert (Hfin : forall x : View,
               chatList x = chatList s -> chatList s <> [] ->
               length (replaceLast (chatList x) (length (objs s)))
               = length (chatList s)).
    { intros x Hx Hne. rewrite Hx. now apply length_replaceLast. }
    destruct (finished data); [destruct (_ && _ && _) |];
      cbn [fst snd]; (split; [exact Hlen |]);
      (split; [intros Hne; exact (Hfin _ Hchat Hne) | split; reflexivity]).
  - unfold animationFrameCallback. rewrite Hcl, Hed. repeat split.
  - unfold animationFrameCallback. rewrite Hcl. repeat split.
Qed.

Lemma step_counts (ev : Event) (s : View) :
  length (streams s) <= length (chatList s) ->
  let s' := fst (step ev s) in
  let es := snd (step ev s) in
  length (streams s') = length (streams s) + length (queries es) /\
  length (chatList s') = length (chatList s) + length (queries es) /\
  openedStreams es = seq (length (streams s)) (length (queries es)).
Proof.
  intros Hinv. cbv zeta.
  destruct ev as [r i | stream data | | r o | r o | stream e | stream | b];
    cbn [step].
  - unfold sendMessage.
    destruct (truthy (propRequestId s) && blankMessage (message i)).
    + cbn [fst snd queries List.filter length]. rewrite !Nat.add_0_r.
      repeat split.
    + cbn [fst snd]. destruct (String.eqb (chatTitle s) "");
        cbn [streams set_streams chatList set_chatList setLoading
             set_hasSavedSessionRef setHasNavigated setHasSavedSession
             setChatTitle alloc set_objs queries List.filter isQuery
             openedStreams omap length seq];
        rewrite !length_app; repeat split.
  - destruct (handleMessage_counts stream data s) as (Hs & Hc & Hq & Ho).
    rewrite Hs, Hc, Hq, Ho. cbn [length seq]. rewrite !Nat.add_0_r.
    repeat split.
  - destruct (rafQueue s) as [| [stream data] rest];
      [cbn [fst snd queries List.filter length]; rewrite !Nat.add_0_r;
       repeat split |].
    destruct (animationFrameCallback_counts stream data (set_rafQueue rest s))
      as (Hs & Hc & Hq & Ho).
    rewrite Hs, Hq, Ho. cbn [length seq]. rewrite !Nat.add_0_r.
    split; [reflexivity |]. split; [| reflexivity].
    destruct (streams s !! stream) as [cl |] eqn:Hcl.
    + apply Hc. cbn [chatList set_rafQueue].
      apply lookup_lt_Some in Hcl. intros Hnil. rewrite Hnil in Hinv.
      simpl in Hinv. lia.
    + unfold animationFrameCallback. cbn [streams set_rafQueue].
      rewrite Hcl. reflexivity.
  - unfold settle.
    destruct (saveChatSession_resume_logs r o) as (es & -> & Hes).
    assert (Hq : queries es = [] /\ openedStreams es = []).
    { induction Hes as [| e es He _ IH]; [split; reflexivity |].
      destruct e; try contradiction. exact IH. }
    destruct Hq as [Hq Ho]. cbv beta iota. cbn [fst snd].
    rewrite Hq, Ho. cbn [length seq]. rewrite !Nat.add_0_r. repeat split.
  - unfold settle.
    destruct (updateChatSession_resume_logs r o) as (es & -> & Hes).
    assert (Hq : queries es = [] /\ openedStreams es = []).
    { induction Hes as [| e es He _ IH]; [split; reflexivity |].
      destruct e; try contradiction. exact IH. }
    destruct Hq as [Hq Ho]. cbv beta iota. cbn [fst snd].
    rewrite Hq, Ho. cbn [length seq]. rewrite !Nat.add_0_r. repeat split.
  - cbn [fst snd handleError settle queries List.filter isQuery length
         openedStreams omap seq]. rewrite !Nat.add_0_r. repeat split.
  - cbn [fst snd handleClose queries List.filter isQuery length
         openedStreams omap seq]. rewrite !Nat.add_0_r. repeat split.
  - cbn [fst snd queries List.filter length openedStreams omap seq].
    rewrite !Nat.add_0_r. repeat split.
Qed.

(** In a run from a view that has a turn for each of its streams, the
    streams and the chat list grow by exactly one entry for every stream
    that is opened, and the streams opened are numbered consecutively from
    the number of streams the view had: an accepted submission adds one
    turn and one stream, and nothing else adds or removes either. *)
Theorem one_stream_per_turn (evs : list Event) (s : View) :
  length (streams s) <= length (chatList s) ->
  let s' := fst (run evs s) in
  let es := snd (run evs s) in
  length (streams s') = length (streams s) + length (queries es) /\
  length (chatList s') = length (chatList s) + length (queries es) /\
  openedStreams es = seq (length (streams s)) (length (queries es)).
Proof.
  revert s. induction evs as [| ev evs IH]; intros s Hinv; cbv zeta.
  - cbn [run fst snd queries List.filter length openedStreams omap seq].
    rewrite !Nat.add_0_r. repeat split.
  - rewrite run_cons. cbn [fst snd].
    destruct (step_counts ev s Hinv) as (Hs & Hc & Ho).
    assert (Hinv' : length (streams (fst (step ev s)))
                    <= length (chatList (fst (step ev s)))) by lia.
    destruct (IH (fst (step ev s)) Hinv') as (Hs' & Hc' & Ho').
    rewrite queries_app, openedStreams_app, length_app, Hs', Hc', Ho', Ho, Hs, Hc.
    split; [lia |]. split; [lia |].
    rewrite <- seq_app. reflexivity.
Qed.

End StreamsAndTurns.

Lemma one_stream_per_turn_witness :
  let s' := fst (Sample.runSpec Sample.twoTurns Sample.freshView) in
  let es := snd (Sample.runSpec Sample.twoTurns Sample.freshView) in
  length (streams Sample.freshView) <= length (chatList Sample.freshView) /\
  length (streams s') = 2 /\ length (chatList s') = 2 /\
  openedStreams es = [0; 1].
Proof.
  assert (Hinv : length (streams Sample.freshView)
                 <= length (chatList Sample.freshView)) by (simpl; lia).
  destruct (@one_stream_per_turn SpecUtils.utils Sample.twoTurns
              Sample.freshView Hinv) as (Hs & Hc & Ho).
  split; [exact Hinv |].
  split; [exact (eq_trans Hs eq_refl) |].
  split; [exact (eq_trans Hc eq_refl) |].
  exact (eq_trans Ho eq_refl).
Defined.
